(** * BitBot: window grouping, chronological split, encoding and balancing

    A shallow embedding of the grouping stage ([grouper/src/main.py]) and
    of the cleaning stage ([limpieza/src/main.py],
    [limpieza/src/balance_clases.py]).

    Python [int] is [Z]; a pandas/numpy [float64] is a primitive binary64
    float, so that division by zero, infinities and NaN behave as they do
    in numpy; a Python [dict] with string keys is a [gmap string _]; an
    exception is a [Raise] in the [result] monad. *)

From Stdlib Require Import ZArith Floats.
From Stdlib Require Uint63.
From stdpp Require Import gmap strings list pretty.

Set Warnings "-inexact-float".
Local Open Scope Z_scope.

(** ** Exceptions *)

Inductive exn : Type :=
| KeyError
| IndexError
| ValueError
| TypeError
| OverflowError
| ZeroDivisionError.

Inductive result (A : Type) : Type :=
| Ok (a : A)
| Raise (e : exn).
Arguments Ok {A} a.
Arguments Raise {A} e.

#[global] Instance result_ret : MRet result := fun A a => Ok a.
#[global] Instance result_bind : MBind result := fun A B f m =>
  match m with
  | Ok a => f a
  | Raise e => Raise e
  end.

#[global] Instance result_fmap : FMap result := fun A B f m =>
  match m with
  | Ok a => Ok (f a)
  | Raise e => Raise e
  end.

(** The value of an outcome, [d] when it is an exception. *)
Definition get_Ok {A} (d : A) (r : result A) : A :=
  match r with Ok a => a | Raise _ => d end.

(** [[f(x) for x in l]] where [f] may raise: the first exception wins. *)
Fixpoint traverse {A B} (f : A -> result B) (l : list A) : result (list B) :=
  match l with
  | [] => Ok []
  | x :: l' => y ← f x; ys ← traverse f l'; Ok (y :: ys)
  end.

(** ** Cell values *)

(** The content of a cell of a table or of a [dict] entry: a string, an
    integer or a float. The missing marker of pandas is the float NaN. *)
Inductive value : Type :=
| VStr (s : string)
| VInt (z : Z)
| VFloat (f : float).

Definition NaN : value := VFloat nan.

(** [float(z)]: the binary64 float nearest to the integer [z]. *)
Definition Z2float (z : Z) : float :=
  SF2Prim (binary_normalize prec emax z 0 false).

(** The operand of a numpy arithmetic operation with a [float64]. *)
Definition as_float (v : value) : result float :=
  match v with
  | VFloat f => Ok f
  | VInt z => Ok (Z2float z)
  | VStr _ => Raise TypeError
  end.

(** [int(f)]: truncation toward zero; [OverflowError] on an infinity and
    [ValueError] on NaN. *)
Definition py_int (f : float) : result Z :=
  match Prim2SF f with
  | S754_zero _ => Ok 0
  | S754_infinity _ => Raise OverflowError
  | S754_nan => Raise ValueError
  | S754_finite s m e =>
      let mag := if 0 <=? e then Z.pos m * 2 ^ e else Z.pos m / 2 ^ (- e) in
      Ok (if s then - mag else mag)
  end.

(** [range(a, b)]. *)
Definition py_range (a b : Z) : list Z := seqZ a (b - a).

(** [enumerate(l, start)]. *)
Definition enumerate {A} (start : Z) (l : list A) : list (Z * A) :=
  zip (seqZ start (Z.of_nat (length l))) l.

(** [d[k]] on a [dict]. *)
Definition getitem {V} (d : gmap string V) (k : string) : result V :=
  match d !! k with
  | Some v => Ok v
  | None => Raise KeyError
  end.

(** [df.iloc[k]] on the rows of a table: a negative position counts from
    the end, a position outside [[-n, n)] raises [IndexError]. *)
Definition iloc {A} (rows : list A) (k : Z) : result A :=
  let n := Z.of_nat (length rows) in
  let pos := if k <? 0 then n + k else k in
  if (0 <=? pos) && (pos <? n) then
    match rows !! Z.to_nat pos with
    | Some r => Ok r
    | None => Raise IndexError
    end
  else Raise IndexError.

(** [df.iloc[:k]] and [df.iloc[k:]]: Python slice bounds are clamped and a
    negative bound counts from the end. *)
Definition slice_bound {A} (rows : list A) (k : Z) : nat :=
  let n := Z.of_nat (length rows) in
  Z.to_nat (Z.min n (if k <? 0 then Z.max 0 (n + k) else k)).

Definition iloc_to {A} (rows : list A) (k : Z) : list A :=
  take (slice_bound rows k) rows.

Definition iloc_from {A} (rows : list A) (k : Z) : list A :=
  drop (slice_bound rows k) rows.

(** The cells of column [k] in a list of rows ([None] where a row has no
    such key). *)
Definition cells (k : string) (rows : list (gmap string value))
  : list (option value) :=
  (.!! k) <$> rows.

(** ** The grouper: [grouper/src/main.py] *)

Module Grouper.

(** One row of [bitcoin_candles.csv], as the scraping stage writes it. *)
Record Candle : Type := {
  fecha : string;
  hora_inicial : string;
  hora_final : string;
  entrada_vela_1 : float;
  salida_vela_1 : float;
  Max_vela_1 : float;
  Min_vela_1 : float;
  porcentaje_retorno_vela_1 : float;
  dia : Z;
  mes : Z;
  anio : Z;
  dia_semana : string
}.

(** The attributes of a [Grouper] object. *)
Record t : Type := {
  candle_size_to_traing : Z;
  candle_to_predict : Z;
  percentage_return_threshold : float;
  data : list Candle
}.

(** The constructor's defaults. *)
Definition init (data : list Candle) : t :=
  {| candle_size_to_traing := 5;
     candle_to_predict := 5;
     percentage_return_threshold := 0.0001;
     data := data |}.

Definition _create_groups (self : t) : list (list Z * Z) :=
  let n := Z.of_nat (length (data self)) in
  let window := candle_size_to_traing self in
  let future := candle_to_predict self in
  let max_index := n - window - future in
  (fun i => (py_range i (i + window), i + window + future - 1))
    <$> py_range 0 max_index.

Definition _extract_candle_features (candle : Candle) (position : Z)
  : gmap string value :=
  let vela_string := pretty position in
  <["entrada_vela_" +:+ vela_string := VFloat (entrada_vela_1 candle)]>
  (<["salida_vela_" +:+ vela_string := VFloat (salida_vela_1 candle)]>
  (<["Max_vela_" +:+ vela_string := VFloat (Max_vela_1 candle)]>
  (<["Min_vela_" +:+ vela_string := VFloat (Min_vela_1 candle)]>
  (<["porcentaje_retorno_vela_" +:+ vela_string :=
       VFloat (porcentaje_retorno_vela_1 candle)]> ∅)))).

Definition _calculate_dates (data_row : gmap string value)
    (train_candles : list Candle) : result (gmap string value) :=
  first_candle ← iloc train_candles 0;
  let data_row := <["fecha" := VStr (fecha first_candle)]> data_row in
  let data_row := <["hora_inicial" := VStr (hora_inicial first_candle)]> data_row in
  let data_row := <["hora_final" := VStr (hora_final first_candle)]> data_row in
  let data_row := <["dia" := VInt (dia first_candle)]> data_row in
  let data_row := <["mes" := VInt (mes first_candle)]> data_row in
  let data_row := <["anio" := VInt (anio first_candle)]> data_row in
  let data_row := <["dia_semana" := VStr (dia_semana first_candle)]> data_row in
  Ok data_row.

Definition _calculate_predict_candle (self : t)
    (data_row : gmap string value) (predict_candle : Candle)
  : result (gmap string value) :=
  let last_candle_position := candle_size_to_traing self in
  last_price ← (getitem data_row ("salida_vela_" +:+ pretty last_candle_position)
                  ≫= as_float);
  let predict_price := entrada_vela_1 predict_candle in
  let return_percentage := ((predict_price - last_price) / last_price)%float in
  Ok (<["is_alcista" :=
          VInt (if (percentage_return_threshold self <? return_percentage)%float
                then 1 else 0)]> data_row).

(** The loop of [_process_group]: one [data_row.update(features)] per
    in-window candle. *)
Fixpoint _process_group_loop (self : t) (data_row : gmap string value)
    (positions : list (Z * Z)) : result (gmap string value) :=
  match positions with
  | [] => Ok data_row
  | (position, idx) :: rest =>
      candle ← iloc (data self) idx;
      let features := _extract_candle_features candle position in
      _process_group_loop self (features ∪ data_row) rest
  end.

Definition _process_group (self : t) (train_indices : list Z)
    (predict_index : Z) : result (gmap string value) :=
  train_candles ← traverse (iloc (data self)) train_indices;
  predict_candle ← iloc (data self) predict_index;
  data_row ← _process_group_loop self ∅ (enumerate 1 train_indices);
  data_row ← _calculate_dates data_row train_candles;
  _calculate_predict_candle self data_row predict_candle.

Definition _create_dataframe_from_groups (self : t)
    (groups : list (list Z * Z)) : result (list (gmap string value)) :=
  traverse (fun '(train_indices, predict_index) =>
              _process_group self train_indices predict_index) groups.

(** The transformation of [main], before the date column and the file. *)
Definition group (self : t) : result (list (gmap string value)) :=
  _create_dataframe_from_groups self (_create_groups self).

(** The five per-candle columns of a window row, as the spec names them:
    open, close, high, low and return, suffixed with the position. *)
Inductive feature : Type := Entrada | Salida | Maximo | Minimo | Retorno.

Definition feature_column (f : feature) (position : Z) : string :=
  match f with
  | Entrada => "entrada_vela_"
  | Salida => "salida_vela_"
  | Maximo => "Max_vela_"
  | Minimo => "Min_vela_"
  | Retorno => "porcentaje_retorno_vela_"
  end +:+ pretty position.

Definition feature_value (f : feature) (c : Candle) : float :=
  match f with
  | Entrada => entrada_vela_1 c
  | Salida => salida_vela_1 c
  | Maximo => Max_vela_1 c
  | Minimo => Min_vela_1 c
  | Retorno => porcentaje_retorno_vela_1 c
  end.

(** [row] is the row of the window that starts at source index [i]: the
    candle at window position [p] is the candle at source index
    [i + p - 1], and the date fields are those of the first candle. *)
Definition window_row (self : t) (i : Z) (row : gmap string value) : Prop :=
  (∀ p, 1 ≤ p ≤ candle_size_to_traing self →
     ∃ c, data self !! Z.to_nat (i + p - 1) = Some c ∧
          ∀ f, row !! feature_column f p = Some (VFloat (feature_value f c))) ∧
  (∃ c, data self !! Z.to_nat i = Some c ∧
        row !! "fecha" = Some (VStr (fecha c)) ∧
        row !! "hora_inicial" = Some (VStr (hora_inicial c)) ∧
        row !! "hora_final" = Some (VStr (hora_final c)) ∧
        row !! "dia" = Some (VInt (dia c)) ∧
        row !! "mes" = Some (VInt (mes c)) ∧
        row !! "anio" = Some (VInt (anio c)) ∧
        row !! "dia_semana" = Some (VStr (dia_semana c))).

(** The spec's [return_forward]. *)
Definition return_forward (last_close future_open : float) : float :=
  ((future_open - last_close) / last_close)%float.

(** Sample data: a candle with the given open and close prices. *)
Definition candle_of (open close : float) : Candle :=
  {| fecha := "2024-01-01"; hora_inicial := "00:00:00";
     hora_final := "00:01:00";
     entrada_vela_1 := open; salida_vela_1 := close;
     Max_vela_1 := open; Min_vela_1 := close;
     porcentaje_retorno_vela_1 := ((close - open) / open)%float;
     dia := 1; mes := 1; anio := 2024; dia_semana := "Lunes" |}.

(** Eleven candles: with the default window and offset there is one
    window, its last close is [last_close] (source index 4) and its
    future open is [future_open] (source index 9). *)
Definition sample_data (last_close future_open : float) : list Candle :=
  replicate 4 (candle_of 100 100) ++ [candle_of 100 last_close]
  ++ replicate 4 (candle_of 100 100) ++ [candle_of future_open 100]
  ++ [candle_of 100 100].

End Grouper.

(** ** Tables: the part of pandas the cleaning stage uses *)

(** A [DataFrame]: its column names and its rows in order, each row a map
    from column name to cell. The index is not modelled: every table here
    is positional ([reset_index(drop=True)] and [copy()] are the
    identity). A [Series] is the list of its cells. *)
Record frame : Type := {
  columns : list string;
  rows : list (gmap string value)
}.

(** [df[col]]. *)
Definition getcol (col : string) (df : frame) : result (list value) :=
  if decide (col ∈ columns df)
  then Ok ((fun r => default NaN (r !! col)) <$> rows df)
  else Raise KeyError.

(** [df.drop(columns=cols)]: every name must be a column. *)
Definition drop_columns (cols : list string) (df : frame) : result frame :=
  if decide (Forall (.∈ columns df) cols)
  then Ok {| columns := filter (.∉ cols) (columns df);
             rows := (fun r => foldr delete r cols) <$> rows df |}
  else Raise KeyError.

(** [df[col] = vals] with one value per row. *)
Definition setcol (col : string) (vals : list value) (df : frame)
  : result frame :=
  if decide (length vals = length (rows df))
  then Ok {| columns := if decide (col ∈ columns df) then columns df
                        else columns df ++ [col];
             rows := zip_with (fun r v => <[col := v]> r) (rows df) vals |}
  else Raise ValueError.

(** [df[col] = array] with a numpy array: one value per row, except that
    a table without rows takes its rows from a non-empty array. *)
Definition setcol_array (col : string) (vals : list value) (df : frame)
  : result frame :=
  match rows df, vals with
  | [], _ :: _ =>
      Ok {| columns := if decide (col ∈ columns df) then columns df
                       else columns df ++ [col];
            rows := (fun v => {[ col := v ]}) <$> vals |}
  | _, _ => setcol col vals df
  end.

(** [df[col] = series] with a series indexed [0, 1, ...]: the values are
    aligned with the rows by position, a row beyond the series gets the
    missing marker and the values beyond the rows are dropped; a table
    without rows takes its rows from the series. *)
Definition setcol_series (col : string) (vals : list value) (df : frame)
  : frame :=
  {| columns := if decide (col ∈ columns df) then columns df
                else columns df ++ [col];
     rows :=
       match rows df with
       | [] => (fun v => {[ col := v ]}) <$> vals
       | _ =>
           let n := length (rows df) in
           zip_with (fun r v => <[col := v]> r) (rows df)
             (take n vals ++ replicate (n - length vals) NaN)
       end |}.

(** [series.map(d)] for a [dict] with string keys: a cell that is not a
    key becomes the missing marker. (pandas stores the codes as floats
    when a missing marker is present; the number is the same.) *)
Definition dict_map_value (d : gmap string Z) (v : value) : value :=
  match v with
  | VStr s => match d !! s with Some z => VInt z | None => NaN end
  | _ => NaN
  end.

Definition Series_map (d : gmap string Z) (col : list value) : list value :=
  dict_map_value d <$> col.

Definition value_is_nan (v : value) : bool :=
  match v with VFloat f => is_nan f | _ => false end.

(** Equality of cells as [value_counts] groups them. *)
Definition value_eqb (a b : value) : bool :=
  match a, b with
  | VStr s1, VStr s2 => String.eqb s1 s2
  | VInt z1, VInt z2 => z1 =? z2
  | VFloat f1, VFloat f2 => (f1 =? f2)%float
  | VInt z, VFloat f | VFloat f, VInt z => (Z2float z =? f)%float
  | _, _ => false
  end.

(** The ascending order of [sort_values] on the cells of one column:
    strings by code point, numbers by value, the missing marker last. *)
Definition value_leb (a b : value) : bool :=
  match a, b with
  | VStr s1, VStr s2 => String.leb s1 s2
  | VInt z1, VInt z2 => z1 <=? z2
  | VFloat f1, VFloat f2 => (f1 <=? f2)%float || is_nan f2
  | _, VFloat f2 => is_nan f2
  | _, _ => false
  end.

Definition key_of (by_ : string) (r : gmap string value) : value :=
  default NaN (r !! by_).

Definition key_leb (by_ : string) (r1 r2 : gmap string value) : bool :=
  value_leb (key_of by_ r1) (key_of by_ r2).

(** Ascending by the column [by_]: an earlier row never has a larger key
    than a later one. *)
Definition sorted_by (by_ : string) (rs : list (gmap string value)) : Prop :=
  ∀ i j ri rj, (i < j)%nat → rs !! i = Some ri → rs !! j = Some rj →
               key_leb by_ ri rj = true.

(** What [df.sort_values(by=...)] guarantees with its default
    [kind='quicksort']: the same columns, the same rows, in ascending
    order of the key. pandas documents that kind as not stable, so the
    order among rows with equal keys is not part of the contract. *)
Definition sort_values_contract
    (sort_values : string → frame → result frame) : Prop :=
  ∀ by_ df sorted, sort_values by_ df = Ok sorted →
    columns sorted = columns df ∧
    rows sorted ≡ₚ rows df ∧
    sorted_by by_ (rows sorted).



(** A sorting procedure that meets the contract. It inserts the rows one
    by one, a row before the first row that is not below it, and checks
    the result, raising [TypeError] when the keys cannot be ordered. *)
Fixpoint insert_by (by_ : string) (r : gmap string value)
    (l : list (gmap string value)) : list (gmap string value) :=
  match l with
  | [] => [r]
  | x :: l' => if key_leb by_ r x then r :: l else x :: insert_by by_ r l'
  end.

Definition insertion_sort (by_ : string) (l : list (gmap string value))
  : list (gmap string value) :=
  foldr (insert_by by_) [] l.

Fixpoint sorted_byb (by_ : string) (l : list (gmap string value)) : bool :=
  match l with
  | [] => true
  | x :: l' => forallb (key_leb by_ x) l' && sorted_byb by_ l'
  end.

Definition checked_sort (by_ : string) (df : frame)
    (rs : list (gmap string value)) : result frame :=
  if decide (by_ ∈ columns df)
  then if sorted_byb by_ rs
       then Ok {| columns := columns df; rows := rs |}
       else Raise TypeError
  else Raise KeyError.

Definition stable_sort_values (by_ : string) (df : frame) : result frame :=
  checked_sort by_ df (insertion_sort by_ (rows df)).





(** ** The balancer: [limpieza/src/balance_clases.py] *)

Module BalanceadorClases.

Record t : Type := {
  target_column : string;
  data : frame
}.

(** [y.value_counts()]: the distinct cells with their numbers of
    occurrences, the missing marker left out. *)
Fixpoint add_count (v : value) (counts : list (value * Z))
  : list (value * Z) :=
  match counts with
  | [] => [(v, 1)]
  | (u, c) :: rest =>
      if value_eqb u v then (u, c + 1) :: rest
      else (u, c) :: add_count v rest
  end.

Definition value_counts (y : list value) : list (value * Z) :=
  foldl (fun counts v => if value_is_nan v then counts else add_count v counts)
        [] y.

(** [class_counts.idxmin()] and [class_counts.idxmax()]: [ValueError] on
    an empty series. *)
Definition idxmin (counts : list (value * Z)) : result value :=
  match counts with
  | [] => Raise ValueError
  | first :: rest =>
      Ok (fst (foldl (fun best e => if snd e <? snd best then e else best)
                     first rest))
  end.

Definition idxmax (counts : list (value * Z)) : result value :=
  match counts with
  | [] => Raise ValueError
  | first :: rest =>
      Ok (fst (foldl (fun best e => if snd best <? snd e then e else best)
                     first rest))
  end.

(** [class_counts[label]]. *)
Definition count_of (counts : list (value * Z)) (label : value) : result Z :=
  match find (fun e => value_eqb (fst e) label) counts with
  | Some e => Ok (snd e)
  | None => Raise KeyError
  end.

Definition minority_count (y : list value) : result Z :=
  let class_counts := value_counts y in
  minority_class ← idxmin class_counts;
  count_of class_counts minority_class.

Definition majority_count (y : list value) : result Z :=
  let class_counts := value_counts y in
  majority_class ← idxmax class_counts;
  count_of class_counts majority_class.

(** The adjustment of [k_neighbors]. *)
Definition adjust_k_neighbors (k_neighbors minority_count : Z) : Z :=
  let max_k_neighbors := minority_count - 1 in
  if k_neighbors >=? minority_count then Z.max 1 max_k_neighbors
  else k_neighbors.

Section smote.

(** [SMOTE(k_neighbors, sampling_strategy, random_state=42)
    .fit_resample(X, y)] of imbalanced-learn: a table and a series, or an
    exception. Nothing is assumed of it. *)
Variable fit_resample :
  Z → float → frame → list value → result (frame * list value).

Definition apply_smote_temporal_safe (self : t)
    (sampling_strategy : float) (k_neighbors : Z)
  : result (frame * list value) :=
  X ← drop_columns [target_column self] (data self);
  y ← getcol (target_column self) (data self);
  minority_count ← minority_count y;
  majority_count ← majority_count y;
  let current_ratio := (Z2float minority_count / Z2float majority_count)%float in
  let k_neighbors := adjust_k_neighbors k_neighbors minority_count in
  if (sampling_strategy <=? current_ratio)%float then Ok (X, y)
  else
    target_minority_count ← py_int (Z2float majority_count * sampling_strategy)%float;
    fit_resample k_neighbors sampling_strategy X y.

End smote.

(** [series.unique()]: the distinct cells in the order of their first
    occurrence; the missing marker is one of them when it occurs. *)
Definition same_label (a b : value) : bool :=
  value_eqb a b || (value_is_nan a && value_is_nan b).

Fixpoint unique (y : list value) : list value :=
  match y with
  | [] => []
  | v :: y' => v :: filter (fun u => negb (same_label v u)) (unique y')
  end.

(** [counts.get(label, 0)]: the count of the label, [None] when the
    default is taken. *)
Definition Series_get (counts : list (value * Z)) (label : value)
  : option Z :=
  snd <$> find (fun e => value_eqb (fst e) label) counts.

(** [(count / total) * 100], where [total] is a Python integer. A count
    that [get] found is a numpy integer, and dividing it by zero gives
    an infinity or NaN; the default is the Python integer 0, and
    dividing it by zero raises. *)
Definition percentage (count : option Z) (total : Z) : result float :=
  match count with
  | Some c => Ok (Z2float c / Z2float total * 100)%float
  | None =>
      if total =? 0 then Raise ZeroDivisionError
      else Ok (Z2float 0 / Z2float total * 100)%float
  end.

(** One entry of [comparison_data]; the two percentages are kept as
    floats (the source stores them as texts with two decimals). *)
Record comparison_row : Type := {
  Class : Z;
  Count_Before : Z;
  Pct_Before : float;
  Count_After : Z;
  Pct_After : float;
  Samples_Added : Z
}.

Section comparison.

(** Three library functions: [Series.sort_index] on class counts,
    Python's [sorted] on the class labels, and [int] of a text. *)
Variable sort_index : list (value * Z) → result (list (value * Z)).
Variable py_sorted : list value → result (list value).
Variable int_of_str : string → result Z.

(** [int(class_label)]. *)
Definition int_of_label (class_label : value) : result Z :=
  match class_label with
  | VInt z => Ok z
  | VFloat f => py_int f
  | VStr s => int_of_str s
  end.

(** The body of the loop of [show_balancing_comparison]. *)
Definition comparison_of
    (class_distribution_before class_distribution_after : list (value * Z))
    (total_before total_after : Z) (class_label : value)
  : result comparison_row :=
  let count_before := Series_get class_distribution_before class_label in
  let count_after := Series_get class_distribution_after class_label in
  pct_before ← percentage count_before total_before;
  pct_after ← percentage count_after total_after;
  class ← int_of_label class_label;
  Ok {| Class := class;
        Count_Before := default 0 count_before;
        Pct_Before := pct_before;
        Count_After := default 0 count_after;
        Pct_After := pct_after;
        Samples_Added := default 0 count_after - default 0 count_before |}.

(** [show_balancing_comparison] once [data_balanced] is a table: the
    entries of [comparison_data], or what is raised on the way. *)
Definition show_balancing_comparison (self : t) (data_balanced : frame)
  : result (list comparison_row) :=
  y ← getcol (target_column self) (data self);
  class_distribution_before ← sort_index (value_counts y);
  y_balanced ← getcol (target_column self) data_balanced;
  class_distribution_after ← sort_index (value_counts y_balanced);
  let total_before := Z.of_nat (length (rows (data self))) in
  let total_after := Z.of_nat (length (rows data_balanced)) in
  class_labels ← py_sorted (unique y);
  traverse (comparison_of class_distribution_before class_distribution_after
              total_before total_after)
           class_labels.

End comparison.

(** A label that is a Python or numpy integer. *)
Definition is_int (v : value) : Prop := ∃ z, v = VInt z.

(** What is used of [sorted] and of [sort_index]: the result is a
    rearrangement of the argument, and integers can always be put in
    order. *)
Definition sorted_contract (py_sorted : list value → result (list value))
  : Prop :=
  (∀ l l', py_sorted l = Ok l' → l' ≡ₚ l) ∧
  (∀ l, Forall is_int l → ∃ l', py_sorted l = Ok l').

Definition sort_index_contract
    (sort_index : list (value * Z) → result (list (value * Z))) : Prop :=
  (∀ c c', sort_index c = Ok c' → c' ≡ₚ c) ∧
  (∀ c, Forall (fun e => is_int (fst e)) c → ∃ c', sort_index c = Ok c').

(** Python's [a < b] on two labels: texts by code point, numbers by
    value (an integer as its float), and [TypeError] between a text and
    a number. A comparison with NaN is false. *)
Definition py_lt (a b : value) : result bool :=
  match a, b with
  | VStr s1, VStr s2 => Ok (negb (String.leb s2 s1))
  | VInt z1, VInt z2 => Ok (z1 <? z2)
  | VStr _, _ | _, VStr _ => Raise TypeError
  | _, _ => a' ← as_float a; b' ← as_float b; Ok (a' <? b')%float
  end.

(** [sorted] and [sort_index] by insertion, an element before the first
    one it is below; they raise what a comparison raises. *)
Fixpoint insert_sorted {A} (key : A → value) (x : A) (l : list A)
  : result (list A) :=
  match l with
  | [] => Ok [x]
  | y :: l' =>
      lt ← py_lt (key x) (key y);
      if lt : bool then Ok (x :: l)
      else l'' ← insert_sorted key x l'; Ok (y :: l'')
  end.

Definition sort_by_insertion {A} (key : A → value) (l : list A)
  : result (list A) :=
  foldr (fun x acc => l' ← acc; insert_sorted key x l') (Ok []) l.

Definition sorted_by_insertion : list value → result (list value) :=
  sort_by_insertion id.

Definition sort_index_by_insertion
  : list (value * Z) → result (list (value * Z)) :=
  sort_by_insertion fst.

(** What is used of SMOTE's [fit_resample] when the balancer calls it
    (the ratio is below the target): it needs more minority rows than
    neighbours, and raises when it has [k_neighbors] rows or fewer. *)
Definition fit_resample_contract
    (fit_resample :
       Z → float → frame → list value → result (frame * list value))
  : Prop :=
  ∀ k_neighbors sampling_strategy X y minority majority,
    minority_count y = Ok minority → majority_count y = Ok majority →
    (sampling_strategy <=? Z2float minority / Z2float majority)%float = false →
    minority ≤ k_neighbors →
    ∃ e, fit_resample k_neighbors sampling_strategy X y = Raise e.

(** An oversampler that makes SMOTE's check of the neighbourhood and
    raises [ValueError] as SMOTE does; the rows it would add are not
    modelled (it returns its input). *)
Definition checking_fit_resample (k_neighbors : Z) (sampling_strategy : float)
    (X : frame) (y : list value) : result (frame * list value) :=
  minority ← minority_count y;
  if minority <=? k_neighbors then Raise ValueError else Ok (X, y).

End BalanceadorClases.

(** ** The cleaner: [limpieza/src/main.py] *)

Module Cleaner.

(** The attributes of a [Cleaner] object once [main] has stored the four
    parts of the partition. *)
Record t : Type := {
  data : frame;
  test_size : float;
  include_data_time : bool;
  x_train : frame;
  x_test : frame;
  y_train : list value;
  y_test : list value
}.

Definition set_data (df : frame) (self : t) : t :=
  {| data := df; test_size := test_size self;
     include_data_time := include_data_time self;
     x_train := x_train self; x_test := x_test self;
     y_train := y_train self; y_test := y_test self |}.

Definition set_x_train (df : frame) (self : t) : t :=
  {| data := data self; test_size := test_size self;
     include_data_time := include_data_time self;
     x_train := df; x_test := x_test self;
     y_train := y_train self; y_test := y_test self |}.

Definition set_x_test (df : frame) (self : t) : t :=
  {| data := data self; test_size := test_size self;
     include_data_time := include_data_time self;
     x_train := x_train self; x_test := df;
     y_train := y_train self; y_test := y_test self |}.

Definition set_y_train (y : list value) (self : t) : t :=
  {| data := data self; test_size := test_size self;
     include_data_time := include_data_time self;
     x_train := x_train self; x_test := x_test self;
     y_train := y; y_test := y_test self |}.

Definition set_y_test (y : list value) (self : t) : t :=
  {| data := data self; test_size := test_size self;
     include_data_time := include_data_time self;
     x_train := x_train self; x_test := x_test self;
     y_train := y_train self; y_test := y |}.

(** A method that may assign attributes and may raise: the outcome and
    the object as the method leaves it. *)
Definition method (A : Type) : Type := t → result A * t.

Definition day_mapping : gmap string Z :=
  list_to_map [("Lunes", 0); ("Martes", 1); ("Miércoles", 2); ("Jueves", 3);
               ("Viernes", 4); ("Sábado", 5); ("Domingo", 6)].

(** The object before [main] runs [partition_data]: the four parts are
    not attributes yet (empty tables stand for them; [partition_data]
    does not read them). *)
Definition init (data : frame) (test_size : float) (include_data_time : bool)
  : t :=
  {| data := data; test_size := test_size;
     include_data_time := include_data_time;
     x_train := {| columns := []; rows := [] |};
     x_test := {| columns := []; rows := [] |};
     y_train := []; y_test := [] |}.

(** Sample data: a row of [data_grouped.csv] cut down to four columns. *)
Definition labeled_row (date dia_semana : string) (close : float)
    (is_alcista : Z) : gmap string value :=
  {[ "date" := VStr date; "dia_semana" := VStr dia_semana;
     "salida_vela_1" := VFloat close; "is_alcista" := VInt is_alcista ]}.

Definition labeled_frame (rs : list (gmap string value)) : frame :=
  {| columns := ["salida_vela_1"; "dia_semana"; "date"; "is_alcista"];
     rows := rs |}.

(** Five rows, out of time order. *)
Definition sample_frame : frame :=
  labeled_frame
    [labeled_row "2024-01-01 00:02:00" "Lunes" 102 1;
     labeled_row "2024-01-01 00:00:00" "Lunes" 100 0;
     labeled_row "2024-01-01 00:04:00" "Lunes" 104 0;
     labeled_row "2024-01-01 00:01:00" "Lunes" 101 1;
     labeled_row "2024-01-01 00:03:00" "Lunes" 103 0].



Definition frame_iloc_to (df : frame) (k : Z) : frame :=
  {| columns := columns df; rows := iloc_to (rows df) k |}.

Definition frame_iloc_from (df : frame) (k : Z) : frame :=
  {| columns := columns df; rows := iloc_from (rows df) k |}.

Section pandas.

Variable sort_values : string → frame → result frame.

(** [partition_data]: [random_state] is a parameter of the source that
    its body never reads. *)
Definition partition_data (date_column : string) (random_state : Z)
  : method (frame * frame * list value * list value) := fun self =>
  match sort_values date_column (data self) with
  | Raise e => (Raise e, self)
  | Ok sorted =>
      let self := set_data sorted self in
      (y ← getcol "is_alcista" (data self);
       x ← drop_columns ["is_alcista"] (data self);
       split_index ←
         py_int (Z2float (Z.of_nat (length (rows (data self))))
                 * (1 - test_size self))%float;
       Ok (frame_iloc_to x split_index, frame_iloc_from x split_index,
           iloc_to y split_index, iloc_from y split_index),
       self)
  end.

End pandas.

Definition encode_dia_semana_ordinal : method () := fun self =>
  if decide ("dia_semana" ∈ columns (x_train self)) then
    match col ← getcol "dia_semana" (x_train self);
          setcol "dia_semana" (Series_map day_mapping col) (x_train self) with
    | Raise e => (Raise e, self)
    | Ok encoded =>
        let self := set_x_train encoded self in
        match col ← getcol "dia_semana" (x_test self);
              setcol "dia_semana" (Series_map day_mapping col) (x_test self) with
        | Raise e => (Raise e, self)
        | Ok encoded => (Ok (), set_x_test encoded self)
        end
    end
  else (Ok (), self).

Definition _handle_temporal_columns : method () := fun self =>
  if include_data_time self then (Ok (), self)
  else
    let temporal_columns :=
      ["date"; "fecha"; "hora_inicial"; "hora_final"; "dia"; "mes"; "anio";
       "dia_semana"] in
    let columns_to_drop :=
      filter (.∈ columns (x_train self)) temporal_columns in
    match columns_to_drop with
    | [] => (Ok (), self)
    | _ =>
        match drop_columns columns_to_drop (x_train self) with
        | Raise e => (Raise e, self)
        | Ok x =>
            let self := set_x_train x self in
            match drop_columns columns_to_drop (x_test self) with
            | Raise e => (Raise e, self)
            | Ok x => (Ok (), set_x_test x self)
            end
        end
    end.

Section smote.

Variable fit_resample :
  Z → float → frame → list value → result (frame * list value).
Variable sort_index : list (value * Z) → result (list (value * Z)).
Variable py_sorted : list value → result (list value).
Variable int_of_str : string → result Z.

(** [_balance_classes]: nothing is assigned to the cleaner before the
    balancer and its comparison have returned. *)
Definition _balance_classes (sampling_strategy : float) (k_neighbors : Z)
  : method () := fun self =>
  match temp_df ← setcol_array "is_alcista" (y_train self) (x_train self);
        let balanceador :=
          {| BalanceadorClases.target_column := "is_alcista";
             BalanceadorClases.data := temp_df |} in
        '(X_balanced, y_balanced) ←
          BalanceadorClases.apply_smote_temporal_safe fit_resample balanceador
            sampling_strategy k_neighbors;
        let data_balanced := setcol_series "is_alcista" y_balanced X_balanced in
        _ ← BalanceadorClases.show_balancing_comparison sort_index py_sorted
              int_of_str balanceador data_balanced;
        Ok (X_balanced, y_balanced) with
  | Raise e => (Raise e, self)
  | Ok (X_balanced, y_balanced) =>
      (Ok (), set_y_train y_balanced (set_x_train X_balanced self))
  end.

End smote.

(** The names of the days, in the order of their codes. *)
Definition day_names : list string :=
  ["Lunes"; "Martes"; "Miércoles"; "Jueves"; "Viernes"; "Sábado"; "Domingo"].

(** What one application of the encoder does to the cells of a table. *)
Definition encoded_cells (df : frame) : list (option value) :=
  (fun r => Some (dict_map_value day_mapping (key_of "dia_semana" r)))
    <$> rows df.

Definition and_then {A B} (m : method A) (f : A → method B) : method B :=
  fun self =>
    match m self with
    | (Ok a, self') => f a self'
    | (Raise e, self') => (Raise e, self')
    end.

Section main.

Variable sort_values : string → frame → result frame.
Variable fit_resample :
  Z → float → frame → list value → result (frame * list value).
Variable sort_index : list (value * Z) → result (list (value * Z)).
Variable py_sorted : list value → result (list value).
Variable int_of_str : string → result Z.

(** The first step of [main]: the partition and the four assignments. *)
Definition partition_step : method () :=
  and_then (partition_data sort_values "date" 42)
    (fun '(x_train, x_test, y_train, y_test) self =>
       (Ok (), set_y_test y_test (set_y_train y_train
                 (set_x_test x_test (set_x_train x_train self))))).

(** [main], without the logging and the files. *)
Definition main : method () :=
  and_then partition_step (fun _ =>
  and_then encode_dia_semana_ordinal (fun _ =>
  and_then _handle_temporal_columns (fun _ =>
  _balance_classes fit_resample sort_index py_sorted int_of_str 0.8 3))).

End main.

(** Sample objects: [sample_frame] partitioned, and an object whose train
    table lacks the day-of-week column while its test table has it. *)
Definition sample_cleaner : t :=
  snd (partition_step stable_sort_values (init sample_frame 0.2 false)).

Definition sample_cleaner_no_train_day : t :=
  set_x_train {| columns := ["salida_vela_1"];
                 rows := [{[ "salida_vela_1" := VFloat 100 ]}] |}
    sample_cleaner.

(** An oversampler that always raises, for the paths that never call it. *)
Definition failing_fit_resample (k_neighbors : Z) (sampling_strategy : float)
    (X : frame) (y : list value) : result (frame * list value) :=
  Raise ValueError.

(** The cells of column [k] in the train features of a partition. *)
Definition train_cells (k : string)
    (res : result (frame * frame * list value * list value))
  : result (list (option value)) :=
  (fun '(x_train, _, _, _) => cells k (rows x_train)) <$> res.

End Cleaner.

(** Sample balancers: on [sample_frame] the classes count 2 and 3, on
    [scarce_frame] 1 and 3. *)
Definition sample_balancer : BalanceadorClases.t :=
  {| BalanceadorClases.target_column := "is_alcista";
     BalanceadorClases.data := Cleaner.sample_frame |}.

Definition scarce_frame : frame :=
  Cleaner.labeled_frame
    [Cleaner.labeled_row "2024-01-01 00:00:00" "Lunes" 100 1;
     Cleaner.labeled_row "2024-01-01 00:01:00" "Lunes" 101 0;
     Cleaner.labeled_row "2024-01-01 00:02:00" "Lunes" 102 0;
     Cleaner.labeled_row "2024-01-01 00:03:00" "Lunes" 103 0].

Definition scarce_balancer : BalanceadorClases.t :=
  {| BalanceadorClases.target_column := "is_alcista";
     BalanceadorClases.data := scarce_frame |}.

(** ** Names used by the further properties *)

(** The list [temporal_columns] of [_handle_temporal_columns], and its
    [columns_to_drop] for a train table. *)
Definition temporal_columns : list string :=
  ["date"; "fecha"; "hora_inicial"; "hora_final"; "dia"; "mes"; "anio";
   "dia_semana"].

Definition columns_to_drop (x_train : frame) : list string :=
  filter (.∈ columns x_train) temporal_columns.

(** [df.drop(columns=cols)] when every name is a column. *)
Definition without_columns (cols : list string) (df : frame) : frame :=
  {| columns := filter (.∉ cols) (columns df);
     rows := (fun r => foldr delete r cols) <$> rows df |}.

(** A table with one encoded day-of-week column. *)
Definition encoded_frame (df : frame) : frame :=
  {| columns := columns df;
     rows := (fun r => <["dia_semana" :=
                          dict_map_value Cleaner.day_mapping
                            (key_of "dia_semana" r)]> r) <$> rows df |}.

(** Sample objects for the temporal-column filter: the partitioned sample
    with and without the day-of-week column in its test table. *)
Definition sample_cleaner_short_test : Cleaner.t :=
  Cleaner.set_x_test {| columns := ["salida_vela_1"; "date"];
                        rows := [{[ "salida_vela_1" := VFloat 104;
                                    "date" := VStr "2024-01-01 00:04:00" ]}] |}
    Cleaner.sample_cleaner.

(** A table that has no label column. *)
Definition unlabeled_frame : frame :=
  {| columns := ["salida_vela_1"; "date"];
     rows := [{[ "salida_vela_1" := VFloat 100;
                 "date" := VStr "2024-01-01 00:00:00" ]}] |}.

(** ** The rest of [Grouper.main] *)

(** [pd.DataFrame(records)] for a list of dicts: the rows are the records
    and the columns the keys that occur in them (the order of the columns
    is not tracked). *)
Definition DataFrame_of_records (records : list (gmap string value)) : frame :=
  {| columns := elements (⋃ (dom <$> records) : gset string);
     rows := records |}.

Section grouper_main.

(** Two library functions: [str] of a float, and [pd.to_datetime] on a
    series of texts. *)
Variable str_of_float : float → string.
Variable to_datetime : list value → result (list value).

(** One cell of [series.astype(str)]. *)
Definition astype_str (v : value) : string :=
  match v with
  | VStr s => s
  | VInt z => pretty z
  | VFloat f => str_of_float f
  end.

(** One cell of [texts + series] on object columns: a missing cell stays
    missing, a number cannot be appended to a text. *)
Definition str_add (a : string) (b : value) : result value :=
  match b with
  | VStr s => Ok (VStr (a +:+ s))
  | VInt _ => Raise TypeError
  | VFloat f => if is_nan f then Ok NaN else Raise TypeError
  end.

Definition _create_date_column (dataframe : frame) : result frame :=
  fecha ← getcol "fecha" dataframe;
  let texts := (fun v => astype_str v +:+ " ") <$> fecha in
  hora_inicial ← getcol "hora_inicial" dataframe;
  texts ← traverse (fun '(a, b) => str_add a b) (zip texts hora_inicial);
  date ← to_datetime texts;
  setcol "date" date dataframe.

(** [Grouper.main] up to the table it saves. *)
Definition Grouper_main (self : Grouper.t) : result frame :=
  data_final ← Grouper.group self;
  _create_date_column (DataFrame_of_records data_final).

End grouper_main.

(** What is used of [pd.to_datetime] on a series: it gives one result per
    text. *)
Definition to_datetime_contract
    (to_datetime : list value → result (list value)) : Prop :=
  ∀ texts dates, to_datetime texts = Ok dates → length dates = length texts.

(** The text that [main] builds for the row of a window from its first
    candle. *)
Definition date_text (c : Grouper.Candle) : value :=
  VStr ((Grouper.fecha c +:+ " ") +:+ Grouper.hora_inicial c).

(** ** Class counts as a whole *)

(** The number of labels that a table of class counts accounts for. *)
Definition total_count (counts : list (value * Z)) : Z :=
  foldr (fun e s => snd e + s) 0 counts.

(** The labels of a table of class counts are pairwise different, and
    none is the missing marker. *)
Inductive distinct_labels : list (value * Z) → Prop :=
| distinct_nil : distinct_labels []
| distinct_cons e rest :
    Forall (fun e' => value_eqb (fst e) (fst e') = false) rest →
    value_eqb (fst e) (fst e) = true →
    distinct_labels rest →
    distinct_labels (e :: rest).

(** ** The balancer run on its own: [BalanceadorClases.main] *)

Module BalanceadorClasesMain.

(** What may be raised here: the exceptions of the table operations, the
    dereference of [None], and the missing input file. *)
Inductive raised : Type :=
| Exn (e : exn)
| AttributeError
| FileNotFoundError.

Inductive outcome (A : Type) : Type :=
| Returns (a : A)
| Raises (r : raised).
Arguments Returns {A} a.
Arguments Raises {A} r.

Definition lift {A} (r : result A) : outcome A :=
  match r with
  | Ok a => Returns a
  | Raise e => Raises (Exn e)
  end.

(** The dictionary [_analyze_class_distribution] returns: per class, its
    count and its percentage. *)
Abbreviation distribution := (gmap Z (Z * float)).

(** The attributes of the object; [None] until assigned. *)
Record t : Type := {
  target_column : string;
  data : option frame;
  data_balanced : option frame;
  class_distribution_before : option distribution;
  class_distribution_after : option distribution
}.

(** [__init__]. *)
Definition init (target_column : string) : t :=
  {| target_column := target_column; data := None; data_balanced := None;
     class_distribution_before := None; class_distribution_after := None |}.

Definition set_data (df : frame) (self : t) : t :=
  {| target_column := target_column self; data := Some df;
     data_balanced := data_balanced self;
     class_distribution_before := class_distribution_before self;
     class_distribution_after := class_distribution_after self |}.

Definition set_class_distribution_before (d : distribution) (self : t) : t :=
  {| target_column := target_column self; data := data self;
     data_balanced := data_balanced self;
     class_distribution_before := Some d;
     class_distribution_after := class_distribution_after self |}.

Definition set_class_distribution_after (d : distribution) (self : t) : t :=
  {| target_column := target_column self; data := data self;
     data_balanced := data_balanced self;
     class_distribution_before := class_distribution_before self;
     class_distribution_after := Some d |}.

Section program.

(** The file system and the libraries: whether a path exists, reading
    and writing a CSV file, [Series.sort_index], Python's [sorted],
    [int] of a text, and the oversampler. Nothing is assumed of them. *)
Variable path_exists : string → bool.
Variable read_csv : string → outcome frame.
Variable to_csv : frame → string → outcome ().
Variable sort_index : list (value * Z) → result (list (value * Z)).
Variable py_sorted : list value → result (list value).
Variable int_of_str : string → result Z.
Variable fit_resample :
  Z → float → frame → list value → result (frame * list value).

Definition load_data (file_path : string) (self : t) : outcome frame * t :=
  if path_exists file_path then
    match read_csv file_path with
    | Returns df => (Returns df, set_data df self)
    | Raises r => (Raises r, self)
    end
  else (Raises FileNotFoundError, self).

Fixpoint distribution_info (total_samples : Z) (class_counts : list (value * Z))
    (info : distribution) : result distribution :=
  match class_counts with
  | [] => Ok info
  | (class_label, count) :: rest =>
      let percentage := (Z2float count / Z2float total_samples * 100)%float in
      key ← BalanceadorClases.int_of_label int_of_str class_label;
      distribution_info total_samples rest (<[key := (count, percentage)]> info)
  end.

Definition _analyze_class_distribution (self : t) (data : option frame)
  : outcome distribution :=
  match data with
  | None => Raises AttributeError
  | Some df =>
      if decide (target_column self ∈ columns df) then
        lift (y ← getcol (target_column self) df;
              class_counts ← sort_index (BalanceadorClases.value_counts y);
              let total_samples := Z.of_nat (length (rows df)) in
              distribution_info total_samples class_counts ∅)
      else Raises (Exn ValueError)
  end.

(** [apply_smote_temporal_safe] on the loaded data; it returns the
    balanced table and labels and assigns nothing. *)
Definition apply_smote_temporal_safe (self : t) (sampling_strategy : float)
    (k_neighbors : Z) : outcome (frame * list value) :=
  match data self with
  | None => Raises AttributeError
  | Some df =>
      lift (BalanceadorClases.apply_smote_temporal_safe fit_resample
              {| BalanceadorClases.target_column := target_column self;
                 BalanceadorClases.data := df |}
              sampling_strategy k_neighbors)
  end.

(** [show_balancing_comparison]: [None] when there is no balanced table;
    reading [self.data[...]] when [data] is [None] is a [TypeError]. *)
Definition show_balancing_comparison (self : t)
  : outcome (option (list BalanceadorClases.comparison_row)) :=
  match data_balanced self with
  | None => Returns None
  | Some balanced =>
      match data self with
      | None => Raises (Exn TypeError)
      | Some df =>
          lift (Some <$> BalanceadorClases.show_balancing_comparison
                           sort_index py_sorted int_of_str
                           {| BalanceadorClases.target_column :=
                                target_column self;
                              BalanceadorClases.data := df |}
                           balanced)
      end
  end.

Definition save_balanced_data (self : t) (output_path : string) : outcome () :=
  match data_balanced self with
  | None => Raises (Exn ValueError)
  | Some balanced => to_csv balanced output_path
  end.

(** [main]: the six steps, then [return self.data_balanced]. An
    [output_file_path] that is [None] or empty saves nothing. *)
Definition main (input_file_path : string) (output_file_path : option string)
    (sampling_strategy : float) (k_neighbors : Z) (self : t)
  : outcome (option frame) * t :=
  match load_data input_file_path self with
  | (Raises r, self) => (Raises r, self)
  | (Returns _, self) =>
  match _analyze_class_distribution self (data self) with
  | Raises r => (Raises r, self)
  | Returns before =>
  let self := set_class_distribution_before before self in
  match apply_smote_temporal_safe self sampling_strategy k_neighbors with
  | Raises r => (Raises r, self)
  | Returns _ =>
  match _analyze_class_distribution self (data_balanced self) with
  | Raises r => (Raises r, self)
  | Returns after =>
  let self := set_class_distribution_after after self in
  match show_balancing_comparison self with
  | Raises r => (Raises r, self)
  | Returns _ =>
  let saved :=
    match output_file_path with
    | Some output_path =>
        if decide (output_path = "") then Returns ()
        else save_balanced_data self output_path
    | None => Returns ()
    end in
  match saved with
  | Raises r => (Raises r, self)
  | Returns _ => (Returns (data_balanced self), self)
  end end end end end end.

End program.

End BalanceadorClasesMain.

(** * Properties *)

(** Membership in an explicit list. *)
Ltac in_columns := solve [repeat first [by left | right]].

(** ** Exceptions and sequences *)

Lemma bind_Ok {A B} (m : result A) (f : A -> result B) (b : B) :
  m ≫= f = Ok b ↔ ∃ a, m = Ok a ∧ f a = Ok b.
Proof.
  destruct m as [a|e]; simpl; split.
  - eauto.
  - intros (a' & [= <-] & ?). done.
  - done.
  - intros (? & [=] & _).
Qed.

Lemma traverse_length {A B} (f : A -> result B) l rs :
  traverse f l = Ok rs → length rs = length l.
Proof.
  revert rs. induction l as [|x l IH]; intros rs; simpl.
  - by intros [= <-].
  - intros (y & _ & (ys & Hys & [= <-])%bind_Ok)%bind_Ok.
    simpl. f_equal. by apply IH.
Qed.

Lemma traverse_lookup {A B} (f : A -> result B) l rs i x :
  traverse f l = Ok rs → l !! i = Some x →
  ∃ r, rs !! i = Some r ∧ f x = Ok r.
Proof.
  revert rs i. induction l as [|a l IH]; intros rs i; simpl; [done|].
  intros (y & Hy & (ys & Hys & [= <-])%bind_Ok)%bind_Ok.
  destruct i as [|i]; simpl.
  - intros [= <-]. eauto.
  - by apply IH.
Qed.

Lemma traverse_Ok {A B} (f : A -> result B) l :
  (∀ x, x ∈ l → ∃ r, f x = Ok r) → ∃ rs, traverse f l = Ok rs.
Proof.
  induction l as [|a l IH]; intros Hall; simpl; [by eexists|].
  destruct (Hall a) as [r Hr]; [by left|].
  destruct IH as [rs Hrs]; [intros; apply Hall; by right|].
  rewrite Hr. simpl. rewrite Hrs. simpl. by eexists.
Qed.

Lemma iloc_Ok {A} (rows : list A) (k : Z) :
  0 ≤ k < Z.of_nat (length rows) →
  ∃ r, rows !! Z.to_nat k = Some r ∧ iloc rows k = Ok r.
Proof.
  intros Hk. unfold iloc.
  destruct (Z.ltb_spec k 0); [lia|].
  destruct (Z.leb_spec 0 k); [|lia].
  destruct (Z.ltb_spec k (Z.of_nat (length rows))); [|lia]. simpl.
  destruct (lookup_lt_is_Some_2 rows (Z.to_nat k)) as [r Hr]; [lia|].
  rewrite Hr. eauto.
Qed.

(** ** Binary64 arithmetic *)

Lemma SFcompare_refl_not_Lt x : SFcompare x x ≠ Some Lt.
Proof.
  destruct x as [[]|[]| |[] m e]; simpl; try done;
    rewrite Z.compare_refl, Pos.compare_cont_refl; done.
Qed.

Lemma float_ltb_irrefl (x : float) : (x <? x)%float = false.
Proof.
  rewrite ltb_spec. unfold SFltb.
  pose proof (SFcompare_refl_not_Lt (Prim2SF x)).
  by destruct (SFcompare (Prim2SF x) (Prim2SF x)) as [[]|].
Qed.

Lemma float_ltb_nan_r (x y : float) :
  Prim2SF y = S754_nan → (x <? y)%float = false.
Proof.
  intros Hy. rewrite ltb_spec, Hy. unfold SFltb.
  by destruct (Prim2SF x) as [[]|[]| |[] m e].
Qed.

Lemma float_ltb_neg_infinity_r (x y : float) :
  Prim2SF y = S754_infinity true → (x <? y)%float = false.
Proof.
  intros Hy. rewrite ltb_spec, Hy. unfold SFltb.
  by destruct (Prim2SF x) as [[]|[]| |[] m e].
Qed.

Lemma float_infinity_eq (x : float) :
  Prim2SF x = S754_infinity false → x = infinity.
Proof. intros Hx. by rewrite <- (SF2Prim_Prim2SF x), Hx. Qed.

(** The quotient [(a - z) / z] for a zero [z] of sign [s]. *)
Lemma float_sub_div_zero (a z : float) (s : bool) :
  Prim2SF z = S754_zero s →
  Prim2SF ((a - z) / z)%float
  = match Prim2SF a with
    | S754_nan | S754_zero _ => S754_nan
    | S754_infinity sa | S754_finite sa _ _ => S754_infinity (xorb sa s)
    end.
Proof.
  intros Hz. rewrite div_spec, sub_spec, Hz.
  by destruct (Prim2SF a) as [[]|[]| |[] m e], s.
Qed.












(** ** The grouper *)

Section grouper.
Import Grouper.

Lemma feature_column_inj f p g q :
  feature_column f p = feature_column g q → f = g ∧ p = q.
Proof.
  unfold feature_column.
  destruct f, g; cbn [String.append]; intros H; try discriminate H;
    (split; [done|]); simplify_eq; by eapply (inj pretty).
Qed.

Lemma feature_column_not_date f p k :
  k ∈ ["fecha"; "hora_inicial"; "hora_final"; "dia"; "mes"; "anio";
       "dia_semana"; "is_alcista"] →
  k ≠ feature_column f p.
Proof.
  unfold feature_column. intros Hk ->.
  repeat (apply elem_of_cons in Hk as [Hk|Hk];
          [by destruct f; cbn [String.append] in Hk|]).
  by apply elem_of_nil in Hk.
Qed.

Lemma extract_candle_features_lookup c q f p :
  _extract_candle_features c q !! feature_column f p
  = if decide (p = q) then Some (VFloat (feature_value f c)) else None.
Proof.
  unfold _extract_candle_features.
  change ("entrada_vela_" +:+ pretty q) with (feature_column Entrada q).
  change ("salida_vela_" +:+ pretty q) with (feature_column Salida q).
  change ("Max_vela_" +:+ pretty q) with (feature_column Maximo q).
  change ("Min_vela_" +:+ pretty q) with (feature_column Minimo q).
  change ("porcentaje_retorno_vela_" +:+ pretty q)
    with (feature_column Retorno q).
  rewrite !lookup_insert, lookup_empty.
  repeat case_decide;
    repeat match goal with
      | H : feature_column _ _ = feature_column _ _ |- _ =>
          apply feature_column_inj in H as [? ?]
      end; subst; try done;
    by destruct f.
Qed.

Lemma process_group_loop_snoc self row l p idx :
  _process_group_loop self row (l ++ [(p, idx)])
  = row' ← _process_group_loop self row l;
    candle ← iloc (data self) idx;
    Ok (_extract_candle_features candle p ∪ row').
Proof.
  revert row. induction l as [|[q j] l IH]; intros row; simpl.
  - by destruct (iloc (data self) idx).
  - destruct (iloc (data self) j); simpl; [apply IH|done].
Qed.

Lemma enumerate_window_S (i : Z) (w : nat) :
  enumerate 1 (py_range i (i + Z.of_nat (S w)))
  = enumerate 1 (py_range i (i + Z.of_nat w))
      ++ [(1 + Z.of_nat w, i + Z.of_nat w)].
Proof.
  unfold enumerate, py_range.
  replace (i + Z.of_nat (S w) - i) with (Z.of_nat (S w)) by lia.
  replace (i + Z.of_nat w - i) with (Z.of_nat w) by lia.
  rewrite !length_seqZ, !Z2Nat.id, !seqZ_S by lia.
  rewrite zip_with_app; [done|].
  rewrite !length_seqZ. lia.
Qed.

(** After the loop over a window of [w] candles starting at [i], the row
    holds, at every position [p] of the window, the five values of the
    candle at source index [i + p - 1]. *)
Lemma process_group_loop_window self i (w : nat) :
  0 ≤ i → i + Z.of_nat w ≤ Z.of_nat (length (data self)) →
  ∃ row,
    _process_group_loop self ∅ (enumerate 1 (py_range i (i + Z.of_nat w)))
      = Ok row ∧
    ∀ p, 1 ≤ p ≤ Z.of_nat w →
      ∃ c, data self !! Z.to_nat (i + p - 1) = Some c ∧
           ∀ f, row !! feature_column f p = Some (VFloat (feature_value f c)).
Proof.
  intros Hi. induction w as [|w IH]; intros Hw.
  - exists ∅. split; [|lia].
    unfold enumerate, py_range.
    by replace (i + Z.of_nat 0 - i) with 0 by lia.
  - destruct IH as (row & Hrow & Hfeat); [lia|].
    destruct (iloc_Ok (data self) (i + Z.of_nat w)) as (c & Hc & Hiloc); [lia|].
    exists (_extract_candle_features c (1 + Z.of_nat w) ∪ row). split.
    + rewrite enumerate_window_S, process_group_loop_snoc, Hrow. simpl.
      by rewrite Hiloc.
    + intros p Hp. destruct (decide (p = 1 + Z.of_nat w)) as [->|Hne].
      * exists c. split; [rewrite <- Hc; f_equal; lia|].
        intros f. apply lookup_union_Some_l.
        rewrite extract_candle_features_lookup. by case_decide.
      * destruct (Hfeat p) as (c' & Hc' & Hf); [lia|].
        exists c'. split; [done|]. intros f.
        rewrite lookup_union_r; [done|].
        rewrite extract_candle_features_lookup. by case_decide.
Qed.

Lemma traverse_iloc_window self i w :
  0 ≤ i → 0 ≤ w → i + w ≤ Z.of_nat (length (data self)) →
  ∃ train_candles,
    traverse (iloc (data self)) (py_range i (i + w)) = Ok train_candles ∧
    length train_candles = Z.to_nat w ∧
    ∀ j c, train_candles !! j = Some c →
           data self !! Z.to_nat (i + Z.of_nat j) = Some c.
Proof.
  intros Hi Hw Hn. unfold py_range.
  replace (i + w - i) with w by lia.
  destruct (traverse_Ok (iloc (data self)) (seqZ i w)) as [cs Hcs].
  { intros x Hx%elem_of_seqZ.
    destruct (iloc_Ok (data self) x) as (r & _ & Hr); [lia|eauto]. }
  exists cs. split; [done|]. split.
  { by rewrite (traverse_length _ _ _ Hcs), length_seqZ. }
  intros j c Hj.
  assert (Hlt : (j < length (seqZ i w))%nat).
  { rewrite <- (traverse_length _ _ _ Hcs). by eapply lookup_lt_Some. }
  rewrite length_seqZ in Hlt.
  destruct (traverse_lookup _ _ _ j (i + Z.of_nat j) Hcs) as (r & Hr & Hx).
  { apply lookup_seqZ. lia. }
  destruct (iloc_Ok (data self) (i + Z.of_nat j)) as (r' & Hr' & Hx'); [lia|].
  congruence.
Qed.

(** What [_process_group] builds for a window that lies inside the data. *)
Lemma process_group_window self i :
  let W := candle_size_to_traing self in
  let F := candle_to_predict self in
  1 ≤ W → 0 ≤ F → 0 ≤ i < Z.of_nat (length (data self)) - W - F →
  ∃ row last_candle future_candle,
    _process_group self (py_range i (i + W)) (i + W + F - 1) = Ok row ∧
    window_row self i row ∧
    data self !! Z.to_nat (i + W - 1) = Some last_candle ∧
    data self !! Z.to_nat (i + W + F - 1) = Some future_candle ∧
    row !! "is_alcista"
    = Some (VInt (if (percentage_return_threshold self
                      <? return_forward (salida_vela_1 last_candle)
                           (entrada_vela_1 future_candle))%float
                  then 1 else 0)).
Proof.
  intros W F HW HF Hi.
  destruct (traverse_iloc_window self i W) as (cs & Hcs & Hlen & Hnth);
    [lia..|].
  destruct (iloc_Ok (data self) (i + W + F - 1)) as (fut & Hfut & Hifut);
    [lia|].
  destruct (process_group_loop_window self i (Z.to_nat W))
    as (row & Hrow & Hfeat); [lia..|].
  rewrite Z2Nat.id in Hrow, Hfeat by lia.
  destruct (iloc_Ok cs 0) as (first & Hfirst & Hifirst); [lia|].
  destruct (Hfeat W) as (last & Hlast & Hlastf); [lia|].
  pose proof (Hlastf Salida) as Hclose. simpl in Hclose.
  eexists _, last, fut. split; [|split; [|split; [|split]]]; [| |done..|].
  - unfold _process_group. fold W F.
    rewrite Hcs. simpl. rewrite Hifut. simpl. rewrite Hrow. simpl.
    unfold _calculate_dates. rewrite Hifirst. simpl.
    unfold _calculate_predict_candle, getitem. fold W.
    rewrite !lookup_insert_ne
      by (apply (feature_column_not_date Salida); in_columns).
    change ("salida_vela_" +:+ pretty W) with (feature_column Salida W).
    rewrite Hclose. simpl. reflexivity.
  - split.
    + intros p Hp. destruct (Hfeat p Hp) as (c & Hc & Hf).
      exists c. split; [done|]. intros f.
      rewrite !lookup_insert_ne
        by (apply feature_column_not_date; in_columns).
      apply Hf.
    + exists first. split.
      { replace i with (i + Z.of_nat 0) at 1 by lia. by apply Hnth. }
      by simplify_map_eq.
  - by simplify_map_eq.
Qed.

Lemma group_rows self :
  1 ≤ candle_size_to_traing self → 0 ≤ candle_to_predict self →
  ∃ rows,
    group self = Ok rows ∧
    length rows
    = Z.to_nat (Z.of_nat (length (data self)) - candle_size_to_traing self
                - candle_to_predict self) ∧
    ∀ i, 0 ≤ i < Z.of_nat (length (data self)) - candle_size_to_traing self
                 - candle_to_predict self →
      ∃ row, rows !! Z.to_nat i = Some row ∧
             _process_group self (py_range i (i + candle_size_to_traing self))
               (i + candle_size_to_traing self + candle_to_predict self - 1)
             = Ok row.
Proof.
  intros HW HF. unfold group, _create_dataframe_from_groups, _create_groups.
  set (W := candle_size_to_traing self) in *.
  set (F := candle_to_predict self) in *.
  set (n := Z.of_nat (length (data self)) - W - F).
  set (g := fun i => (py_range i (i + W), i + W + F - 1)).
  set (h := fun '(train_indices, predict_index) =>
              _process_group self train_indices predict_index).
  destruct (traverse_Ok h (g <$> py_range 0 n)) as [rows Hrows].
  { intros x (i & -> & Hi%elem_of_seqZ)%list_elem_of_fmap.
    destruct (process_group_window self i) as (row & _ & _ & Hrow & _);
      [done|done|fold W F; lia|].
    by exists row. }
  exists rows. split; [done|]. split.
  { rewrite (traverse_length _ _ _ Hrows), length_fmap.
    unfold py_range. rewrite length_seqZ. f_equal. lia. }
  intros i Hi.
  destruct (traverse_lookup h _ _ (Z.to_nat i) (g i) Hrows) as (row & ? & ?).
  { rewrite list_lookup_fmap. unfold py_range.
    rewrite lookup_seqZ_lt by lia. simpl. do 2 f_equal. lia. }
  by exists row.
Qed.

(** C1. For every window start [i] inside the data, with window size
    [W >= 1], future offset [F >= 0] and threshold [T], the [i]-th row of
    the grouper's output is labelled from [last_close], the close of the
    candle at window position [W] (the row's [salida_vela_W], source index
    [i + W - 1]), and [future_open], the open of the candle at source
    index [i + W + F - 1]: [is_alcista] is 1 if and only if
    [(future_open - last_close) / last_close > T], and 0 otherwise; a
    return equal to [T] gives 0. *)
Theorem grouper_label_rule (self : Grouper.t) (i : Z) :
  1 ≤ candle_size_to_traing self → 0 ≤ candle_to_predict self →
  0 ≤ i < Z.of_nat (length (data self)) - candle_size_to_traing self
          - candle_to_predict self →
  ∃ rows row last_candle future_candle,
    group self = Ok rows ∧ rows !! Z.to_nat i = Some row ∧
    data self !! Z.to_nat (i + candle_size_to_traing self - 1)
      = Some last_candle ∧
    row !! ("salida_vela_" +:+ pretty (candle_size_to_traing self))
      = Some (VFloat (salida_vela_1 last_candle)) ∧
    data self !! Z.to_nat (i + candle_size_to_traing self
                            + candle_to_predict self - 1)
      = Some future_candle ∧
    let r := return_forward (salida_vela_1 last_candle)
               (entrada_vela_1 future_candle) in
    let T := percentage_return_threshold self in
    (row !! "is_alcista" = Some (VInt 1) ↔ (T <? r)%float = true) ∧
    (row !! "is_alcista" = Some (VInt 0) ↔ (T <? r)%float = false) ∧
    (r = T → row !! "is_alcista" = Some (VInt 0)).
Proof.
  intros HW HF Hi.
  destruct (group_rows self HW HF) as (rows & Hrows & _ & Hnth).
  destruct (Hnth i Hi) as (row & Hrow & Hproc).
  destruct (process_group_window self i HW HF Hi)
    as (row' & last & fut & Hproc' & [Hfeat _] & Hlast & Hfut & Hlabel).
  assert (row' = row) as -> by congruence.
  exists rows, row, last, fut. repeat split; try done.
  - destruct (Hfeat (candle_size_to_traing self)) as (c & Hc & Hf); [lia|].
    assert (c = last) as -> by congruence. apply (Hf Salida).
  - rewrite Hlabel. by case_match.
  - rewrite Hlabel. by intros ->.
  - rewrite Hlabel. by case_match.
  - rewrite Hlabel. by intros ->.
  - intros Heq. rewrite Hlabel, Heq. by rewrite float_ltb_irrefl.
Qed.

(** P2 of the spec, first case: last close 100, future open 100.02 and
    threshold 0.0001 give the label 1. *)
Lemma grouper_label_rule_witness :
  ∃ rows row,
    group (init (sample_data 100 100.02)) = Ok rows ∧
    rows !! 0%nat = Some row ∧ row !! "is_alcista" = Some (VInt 1).
Proof.
  destruct (grouper_label_rule (init (sample_data 100 100.02)) 0)
    as (rows & row & last & fut & Hrows & Hrow & Hlast & _ & Hfut & Hone & _);
    [simpl; lia..|].
  exists rows, row. split; [done|]. split; [done|].
  apply Hone. injection Hlast as <-. injection Hfut as <-.
  vm_compute. reflexivity.
Defined.

(** P2 of the spec, second case: future open 100.005 gives the label 0. *)
Example grouper_label_p2_below :
  cells "is_alcista" <$> group (init (sample_data 100 100.005))
  = Ok [Some (VInt 0)].
Proof. vm_compute. reflexivity. Qed.

(** C2. The grouper produces exactly [max(0, N - W - F)] labeled rows.
    When [N - W - F <= 0] the output is the empty sequence and nothing
    is raised, whatever [W] and [F]. For [W >= 1] and [F >= 0] the row
    at output position [i] is the row of the window that starts at
    source index [i], for every [i] in [[0, N - W - F)], and it carries
    its label: [is_alcista] is 1 or 0 as the forward return, from the
    last close of the window to the open of the candle at source index
    [i + W + F - 1], exceeds the threshold or not. *)
Theorem grouper_window_count (self : Grouper.t) :
  let n := Z.of_nat (length (data self)) - candle_size_to_traing self
           - candle_to_predict self in
  (n ≤ 0 → group self = Ok []) ∧
  (1 ≤ candle_size_to_traing self → 0 ≤ candle_to_predict self →
   ∃ rows,
     group self = Ok rows ∧
     length rows = Z.to_nat (Z.max 0 n) ∧
     ∀ i, 0 ≤ i < n →
       ∃ row last_candle future_candle,
         rows !! Z.to_nat i = Some row ∧ window_row self i row ∧
         data self !! Z.to_nat (i + candle_size_to_traing self - 1)
           = Some last_candle ∧
         data self !! Z.to_nat (i + candle_size_to_traing self
                                 + candle_to_predict self - 1)
           = Some future_candle ∧
         row !! "is_alcista"
         = Some (VInt (if (percentage_return_threshold self
                           <? return_forward (salida_vela_1 last_candle)
                                (entrada_vela_1 future_candle))%float
                       then 1 else 0))).
Proof.
  intros n. split.
  - intros Hn. unfold group, _create_groups, py_range. fold n.
    by rewrite seqZ_nil by lia.
  - intros HW HF.
    destruct (group_rows self HW HF) as (rows & Hrows & Hlen & Hnth).
    exists rows. split; [done|]. split; [fold n in Hlen; lia|].
    intros i Hi. destruct (Hnth i Hi) as (row & Hrow & Hproc).
    destruct (process_group_window self i HW HF Hi)
      as (row' & last & fut & Hproc' & Hwin & Hlast & Hfut & Hlabel).
    assert (row' = row) as -> by congruence.
    by exists row, last, fut.
Qed.

Lemma grouper_window_count_witness :
  group (init (replicate 9 (candle_of 100 100))) = Ok [] ∧
  ∃ rows row, group (init (sample_data 100 100.005)) = Ok rows ∧
              length rows = 1%nat ∧ rows !! 0%nat = Some row ∧
              row !! "is_alcista" = Some (VInt 0).
Proof.
  split.
  - apply (grouper_window_count (init (replicate 9 (candle_of 100 100)))).
    simpl. lia.
  - destruct (grouper_window_count (init (sample_data 100 100.005)))
      as [_ (rows & Hrows & Hlen & Hnth)]; [simpl; lia..|].
    destruct (Hnth 0) as (row & last & fut & Hrow & _ & Hlast & Hfut & Hlabel);
      [simpl; lia|].
    exists rows, row. split; [exact Hrows|]. split; [exact Hlen|].
    split; [exact Hrow|]. rewrite Hlabel.
    injection Hlast as <-. injection Hfut as <-. vm_compute. reflexivity.
Defined.

(** C4, as the spec states it, fails: with a last close of exactly zero
    nothing is raised, the quotient is +infinity and the label is 1. *)
Lemma grouper_zero_close_no_error :
  cells "is_alcista" <$> group (init (sample_data 0 100))
  = Ok [Some (VInt 1)].
Proof. vm_compute. reflexivity. Qed.

(** C4, amended. When the last in-window close is a zero (of either sign),
    the forward-label computation raises nothing: the return is the
    IEEE-754 quotient, an infinity or NaN and never a finite number, and
    the label is 1 exactly when the return is +infinity and the threshold
    is below +infinity, and 0 otherwise. *)
Theorem grouper_zero_close_label (self : Grouper.t)
    (data_row : gmap string value) (predict_candle : Candle)
    (last_close : float) (s : bool) :
  data_row !! ("salida_vela_" +:+ pretty (candle_size_to_traing self))
    = Some (VFloat last_close) →
  Prim2SF last_close = S754_zero s →
  let r := return_forward last_close (entrada_vela_1 predict_candle) in
  let T := percentage_return_threshold self in
  ∃ label,
    _calculate_predict_candle self data_row predict_candle
      = Ok (<["is_alcista" := VInt label]> data_row) ∧
    (Prim2SF r = S754_nan ∨ ∃ b, Prim2SF r = S754_infinity b) ∧
    (label = 1 ↔ r = infinity ∧ (T <? infinity)%float = true) ∧
    (label = 0 ∨ label = 1).
Proof.
  intros Hrow Hzero r T.
  exists (if (T <? r)%float then 1 else 0). split; [|split; [|split]].
  - unfold _calculate_predict_candle, getitem. by rewrite Hrow.
  - unfold r, return_forward. rewrite (float_sub_div_zero _ _ s Hzero).
    destruct (Prim2SF (entrada_vela_1 predict_candle)); eauto.
  - pose proof (float_sub_div_zero (entrada_vela_1 predict_candle)
                  last_close s Hzero) as Hr.
    fold (return_forward last_close (entrada_vela_1 predict_candle)) in Hr.
    fold r in Hr.
    assert (Hcases : Prim2SF r = S754_nan ∨ Prim2SF r = S754_infinity true
                     ∨ Prim2SF r = S754_infinity false).
    { rewrite Hr. destruct (Prim2SF (entrada_vela_1 predict_candle))
        as [?|sa| |sa ? ?]; try (by left); destruct sa, s; simpl; eauto. }
    destruct Hcases as [Hnan|[Hneg|Hpos]].
    + rewrite (float_ltb_nan_r T r Hnan). split; [done|].
      intros [Hinf _]. rewrite Hinf in Hnan. by vm_compute in Hnan.
    + rewrite (float_ltb_neg_infinity_r T r Hneg). split; [done|].
      intros [Hinf _]. rewrite Hinf in Hneg. by vm_compute in Hneg.
    + rewrite (float_infinity_eq r Hpos).
      destruct (T <? infinity)%float; split; try done. by intros [_ [=]].
  - case_match; eauto.
Qed.

Lemma grouper_zero_close_label_witness :
  ∃ label,
    _calculate_predict_candle (init [])
      {["salida_vela_5" := VFloat 0]} (candle_of 100 100)
    = Ok (<["is_alcista" := VInt label]> {["salida_vela_5" := VFloat 0]}) ∧
    label = 1.
Proof.
  destruct (grouper_zero_close_label (init [])
              {["salida_vela_5" := VFloat 0]} (candle_of 100 100) 0 false)
    as (label & Hrun & _ & Hone & _); [reflexivity..|].
  exists label. split; [exact Hrun|].
  apply Hone. split; vm_compute; reflexivity.
Defined.

End grouper.

(** ** Tables *)

Lemma sorted_byb_sound by_ l : sorted_byb by_ l = true → sorted_by by_ l.
Proof.
  induction l as [|x l IH]; intros Hs i j ri rj Hij Hi Hj; [done|].
  simpl in Hs. apply andb_prop in Hs as [Hx Hl].
  destruct i as [|i], j as [|j]; simpl in *; try lia.
  - injection Hi as <-.
    rewrite forallb_forall in Hx. apply Hx.
    apply list_elem_of_In, list_elem_of_lookup. eauto.
  - apply (IH Hl i j); [lia|done..].
Qed.

Lemma insert_by_perm by_ r l : insert_by by_ r l ≡ₚ r :: l.
Proof.
  induction l as [|x l IH]; simpl; [done|].
  destruct (key_leb by_ r x); [done|].
  rewrite IH. apply Permutation_swap.
Qed.

Lemma insertion_sort_perm by_ l : insertion_sort by_ l ≡ₚ l.
Proof.
  induction l as [|x l IH]; simpl; [done|].
  rewrite insert_by_perm. by f_equiv.
Qed.

Lemma checked_sort_contract by_ df rs sorted :
  rs ≡ₚ rows df → checked_sort by_ df rs = Ok sorted →
  columns sorted = columns df ∧ rows sorted ≡ₚ rows df ∧
  sorted_by by_ (rows sorted).
Proof.
  unfold checked_sort. intros Hperm.
  case_decide; [|done].
  destruct (sorted_byb by_ rs) eqn:Hs; intros [= <-]; simpl.
  auto using sorted_byb_sound.
Qed.

Lemma stable_sort_values_contract : sort_values_contract stable_sort_values.
Proof.
  intros by_ df sorted. apply checked_sort_contract, insertion_sort_perm.
Qed.







Lemma slice_bound_fmap {A B} (f : A → B) (l : list A) (k : Z) :
  slice_bound (f <$> l) k = slice_bound l k.
Proof. unfold slice_bound. by rewrite length_fmap. Qed.

Lemma key_of_delete by_ k r : by_ ≠ k → key_of by_ (delete k r) = key_of by_ r.
Proof. intros Hne. unfold key_of. by rewrite lookup_delete_ne. Qed.

(** The rows before a cut never come after the rows behind it. *)
Lemma sorted_by_take_drop by_ (rs : list (gmap string value)) (b : nat) r1 r2 :
  sorted_by by_ rs → r1 ∈ take b rs → r2 ∈ drop b rs →
  key_leb by_ r1 r2 = true.
Proof.
  intros Hs [i Hi]%list_elem_of_lookup [j Hj]%list_elem_of_lookup.
  apply lookup_take_Some in Hi as [Hi Hlt].
  rewrite lookup_drop in Hj.
  apply (Hs i (b + j)%nat); [lia|done..].
Qed.

Lemma getcol_Ok col df :
  col ∈ columns df → getcol col df = Ok (key_of col <$> rows df).
Proof. intros Hin. unfold getcol. by rewrite decide_True. Qed.

Lemma drop_columns_one_Ok col df :
  col ∈ columns df →
  drop_columns [col] df
  = Ok {| columns := filter (.∉ [col]) (columns df);
          rows := delete col <$> rows df |}.
Proof.
  intros Hin. unfold drop_columns. rewrite decide_True; [done|].
  by apply Forall_singleton.
Qed.

Lemma drop_columns_one_rows col df x :
  drop_columns [col] df = Ok x → rows x = delete col <$> rows df.
Proof. unfold drop_columns. case_decide; [|done]. by intros [= <-]. Qed.




(** ** The cleaner *)

Section cleaner.
Import Cleaner.

Variable sort_values : string → frame → result frame.

Lemma partition_data_inv date_column random_state self res self' :
  partition_data sort_values date_column random_state self = (Ok res, self') →
  ∃ sorted y x split_index,
    sort_values date_column (data self) = Ok sorted ∧
    self' = set_data sorted self ∧
    getcol "is_alcista" sorted = Ok y ∧
    drop_columns ["is_alcista"] sorted = Ok x ∧
    py_int (Z2float (Z.of_nat (length (rows sorted)))
            * (1 - test_size self))%float = Ok split_index ∧
    res = (frame_iloc_to x split_index, frame_iloc_from x split_index,
           iloc_to y split_index, iloc_from y split_index).
Proof.
  unfold partition_data.
  destruct (sort_values date_column (data self)) as [sorted|e]; [|done].
  simpl. intros [= Hres <-].
  apply bind_Ok in Hres as (y & Hy & Hres).
  apply bind_Ok in Hres as (x & Hx & Hres).
  apply bind_Ok in Hres as (k & Hk & [= <-]).
  by exists sorted, y, x, k.
Qed.

(** C3. After the chronological split, every date in the train split is
    less than or equal to every date in the test split, for any
    [sort_values] that sorts: any input table, any [test_size] (those in
    (0,1) among them). *)
Theorem split_no_leakage (self self' : Cleaner.t) (random_state : Z)
    (x_train x_test : frame) (y_train y_test : list value) :
  sort_values_contract sort_values →
  partition_data sort_values "date" random_state self
    = (Ok (x_train, x_test, y_train, y_test), self') →
  ∀ d1 d2, d1 ∈ key_of "date" <$> rows x_train →
           d2 ∈ key_of "date" <$> rows x_test →
           value_leb d1 d2 = true.
Proof.
  intros Hsort Hpart.
  apply partition_data_inv in Hpart
    as (sorted & y & x & k & Hsorted & _ & _ & Hx & _ & [= -> -> _ _]).
  destruct (Hsort _ _ _ Hsorted) as (_ & _ & Hasc).
  apply drop_columns_one_rows in Hx.
  intros d1 d2 (r1 & -> & Hr1)%list_elem_of_fmap (r2 & -> & Hr2)%list_elem_of_fmap.
  simpl in Hr1, Hr2. unfold iloc_to in Hr1. unfold iloc_from in Hr2.
  rewrite Hx, slice_bound_fmap in Hr1, Hr2.
  rewrite <- fmap_take in Hr1. rewrite <- fmap_drop in Hr2.
  apply list_elem_of_fmap in Hr1 as (r1' & -> & Hr1).
  apply list_elem_of_fmap in Hr2 as (r2' & -> & Hr2).
  rewrite !key_of_delete by done.
  by apply (sorted_by_take_drop "date" (rows sorted)
              (slice_bound (rows sorted) k)).
Qed.

End cleaner.

Lemma split_no_leakage_witness :
  sort_values_contract stable_sort_values ∧
  Cleaner.train_cells "date"
    (fst (Cleaner.partition_data stable_sort_values "date" 42
            (Cleaner.init Cleaner.sample_frame 0.2 false)))
  = Ok [Some (VStr "2024-01-01 00:00:00"); Some (VStr "2024-01-01 00:01:00");
        Some (VStr "2024-01-01 00:02:00"); Some (VStr "2024-01-01 00:03:00")] ∧
  value_leb (VStr "2024-01-01 00:03:00") (VStr "2024-01-01 00:04:00") = true.
Proof.
  split; [apply stable_sort_values_contract|].
  split; [vm_compute; reflexivity|].
  set (self := Cleaner.init Cleaner.sample_frame 0.2 false).
  set (p := Cleaner.partition_data stable_sort_values "date" 42 self).
  set (res := get_Ok (Cleaner.data self, Cleaner.data self, [], []) (fst p)).
  apply (split_no_leakage stable_sort_values self (snd p) 42
           res.1.1.1 res.1.1.2 res.1.2 res.2 stable_sort_values_contract).
  - vm_compute. reflexivity.
  - vm_compute. in_columns.
  - vm_compute. in_columns.
Defined.

Section cleaner_split.
Import Cleaner.

Variable sort_values : string → frame → result frame.



End cleaner_split.


(** P3 of the spec: 100 rows and a test fraction of 0.2 cut at 80. *)
Example split_index_p3 : py_int (Z2float 100 * (1 - 0.2))%float = Ok 80.
Proof. vm_compute. reflexivity. Qed.


(** ** The day-of-week encoder *)

Section encoder.
Import Cleaner.

Lemma zip_with_insert_fmap (col : string) (f : gmap string value → value)
    (l : list (gmap string value)) :
  zip_with (fun r v => <[col := v]> r) l (f <$> l)
  = (fun r => <[col := f r]> r) <$> l.
Proof. induction l as [|r l IH]; simpl; [done|]. f_equal. apply IH. Qed.

Lemma encode_column_Ok df :
  "dia_semana" ∈ columns df →
  (col ← getcol "dia_semana" df;
   setcol "dia_semana" (Series_map day_mapping col) df)
  = Ok {| columns := columns df;
          rows := (fun r => <["dia_semana" :=
                               dict_map_value day_mapping
                                 (key_of "dia_semana" r)]> r) <$> rows df |}.
Proof.
  intros Hcol. rewrite (getcol_Ok _ _ Hcol). simpl.
  unfold setcol, Series_map.
  rewrite decide_True by (by rewrite !length_fmap).
  rewrite decide_True by done.
  by rewrite <- list_fmap_compose, zip_with_insert_fmap.
Qed.

Lemma encode_dia_semana_ordinal_Ok self :
  "dia_semana" ∈ columns (x_train self) →
  "dia_semana" ∈ columns (x_test self) →
  ∃ self',
    encode_dia_semana_ordinal self = (Ok (), self') ∧
    columns (x_train self') = columns (x_train self) ∧
    columns (x_test self') = columns (x_test self) ∧
    cells "dia_semana" (rows (x_train self')) = encoded_cells (x_train self) ∧
    cells "dia_semana" (rows (x_test self')) = encoded_cells (x_test self).
Proof.
  intros Htrain Htest. unfold encode_dia_semana_ordinal.
  rewrite decide_True by done.
  rewrite (encode_column_Ok _ Htrain). simpl.
  rewrite (encode_column_Ok _ Htest).
  eexists. split; [done|]. simpl. split; [done|]. split; [done|].
  unfold cells, encoded_cells. rewrite <- !list_fmap_compose.
  split; apply list_fmap_ext; intros i r _; simpl; by rewrite lookup_insert_eq.
Qed.

Lemma dict_map_value_twice d v : dict_map_value d (dict_map_value d v) = NaN.
Proof. destruct v as [s| |]; simpl; [|done..]. by destruct (d !! s). Qed.

Lemma encoded_cells_twice self self' :
  cells "dia_semana" (rows (x_train self')) = encoded_cells (x_train self) →
  encoded_cells (x_train self') = (fun _ => Some NaN) <$> rows (x_train self).
Proof.
  unfold cells, encoded_cells. intros Hcells.
  apply list_eq. intros i.
  apply (f_equal (.!! i)) in Hcells.
  rewrite !list_lookup_fmap in *.
  destruct (rows (x_train self') !! i) as [r'|],
           (rows (x_train self) !! i) as [r|]; simplify_eq/=; [|done].
  unfold key_of. rewrite Hcells. simpl. by rewrite dict_map_value_twice.
Qed.

(** C8, as the spec states it, fails: on a column that is already
    encoded, a second application replaces the code 0 of "Lunes" by the
    missing marker. *)
Lemma encoder_not_idempotent :
  let once := snd (encode_dia_semana_ordinal sample_cleaner) in
  let twice := snd (encode_dia_semana_ordinal once) in
  fst (encode_dia_semana_ordinal once) = Ok () ∧
  cells "dia_semana" (rows (x_test once)) = [Some (VInt 0)] ∧
  cells "dia_semana" (rows (x_test twice)) = [Some NaN].
Proof. vm_compute. done. Qed.

(** C8, amended. The encoder maps the day names through the fixed table
    Lunes -> 0 ... Domingo -> 6 and every other cell to the missing
    marker. The codes are not keys of the table, so the encoder is not
    idempotent: a second application turns every cell of the column, the
    codes 0..6 included, into the missing marker. *)
Theorem encoder_table_then_missing (self : Cleaner.t) :
  "dia_semana" ∈ columns (x_train self) →
  "dia_semana" ∈ columns (x_test self) →
  let encode := dict_map_value day_mapping in
  encode <$> (VStr <$> day_names) = VInt <$> [0; 1; 2; 3; 4; 5; 6] ∧
  (∀ v, (∀ s, v = VStr s → s ∉ day_names) → encode v = NaN) ∧
  ∃ once twice,
    encode_dia_semana_ordinal self = (Ok (), once) ∧
    cells "dia_semana" (rows (x_train once)) = encoded_cells (x_train self) ∧
    cells "dia_semana" (rows (x_test once)) = encoded_cells (x_test self) ∧
    encode_dia_semana_ordinal once = (Ok (), twice) ∧
    cells "dia_semana" (rows (x_train twice))
      = (fun _ => Some NaN) <$> rows (x_train self) ∧
    cells "dia_semana" (rows (x_test twice))
      = (fun _ => Some NaN) <$> rows (x_test self).
Proof.
  intros Htrain Htest encode. split; [done|]. split.
  - intros [s| |] Hs; [|done..]. unfold encode. simpl.
    unfold day_mapping. rewrite (not_elem_of_list_to_map_1 _ s); [done|].
    by apply Hs.
  - destruct (encode_dia_semana_ordinal_Ok self Htrain Htest)
      as (once & Honce & Hc1 & Hc2 & Htr1 & Hte1).
    destruct (encode_dia_semana_ordinal_Ok once) as
      (twice & Htwice & _ & _ & Htr2 & Hte2); [by rewrite ?Hc1, ?Hc2..|].
    exists once, twice. repeat split; try done.
    + rewrite Htr2. by apply encoded_cells_twice.
    + rewrite Hte2. clear -Hte1. revert Hte1.
      unfold cells, encoded_cells. intros Hcells.
      apply list_eq. intros i. apply (f_equal (.!! i)) in Hcells.
      rewrite !list_lookup_fmap in *.
      destruct (rows (x_test once) !! i) as [r'|],
               (rows (x_test self) !! i) as [r|]; simplify_eq/=; [|done].
      unfold key_of. rewrite Hcells. simpl. by rewrite dict_map_value_twice.
Qed.

Lemma encoder_table_then_missing_witness :
  ∃ once twice,
    encode_dia_semana_ordinal sample_cleaner = (Ok (), once) ∧
    cells "dia_semana" (rows (x_test once)) = [Some (VInt 0)] ∧
    encode_dia_semana_ordinal once = (Ok (), twice) ∧
    cells "dia_semana" (rows (x_test twice)) = [Some NaN].
Proof.
  destruct (encoder_table_then_missing sample_cleaner)
    as (_ & _ & once & twice & H1 & _ & H2 & H3 & _ & H4);
    [vm_compute; in_columns..|].
  exists once, twice. by repeat split.
Defined.

(** C10. When ['dia_semana'] is not a column of the train table, the
    encoder returns without raising and changes nothing, neither the
    train table nor the test table, whether or not the test table has the
    column. *)
Theorem encoder_skips_without_train_column (self : Cleaner.t) :
  "dia_semana" ∉ columns (x_train self) →
  encode_dia_semana_ordinal self = (Ok (), self).
Proof.
  intros Hcol. unfold encode_dia_semana_ordinal. by rewrite decide_False.
Qed.

Lemma encoder_skips_without_train_column_witness :
  "dia_semana" ∈ columns (x_test sample_cleaner_no_train_day) ∧
  encode_dia_semana_ordinal sample_cleaner_no_train_day
  = (Ok (), sample_cleaner_no_train_day).
Proof.
  split; [vm_compute; in_columns|].
  apply encoder_skips_without_train_column.
  vm_compute. intros Hin.
  by repeat (apply elem_of_cons in Hin as [Hin|Hin]; [done|]);
     apply elem_of_nil in Hin.
Defined.

End encoder.

(** ** The balancer *)

Section balancer.
Import BalanceadorClases.

Variable fit_resample :
  Z → float → frame → list value → result (frame * list value).

Lemma apply_smote_temporal_safe_unfold self sampling_strategy k_neighbors
    minority majority :
  target_column self ∈ columns (data self) →
  let X := {| columns := filter (.∉ [target_column self]) (columns (data self));
              rows := delete (target_column self) <$> rows (data self) |} in
  let y := key_of (target_column self) <$> rows (data self) in
  minority_count y = Ok minority →
  majority_count y = Ok majority →
  apply_smote_temporal_safe fit_resample self sampling_strategy k_neighbors
  = if (sampling_strategy <=? Z2float minority / Z2float majority)%float
    then Ok (X, y)
    else py_int (Z2float majority * sampling_strategy)%float
           ≫= fun _ => fit_resample (adjust_k_neighbors k_neighbors minority)
                         sampling_strategy X y.
Proof.
  intros Hcol X y Hmin Hmaj. unfold apply_smote_temporal_safe.
  rewrite (drop_columns_one_Ok _ _ Hcol), (getcol_Ok _ _ Hcol). simpl.
  fold y. rewrite Hmin. simpl. rewrite Hmaj. simpl. reflexivity.
Qed.

(** C6. When the current minority/majority ratio is at least the target
    ratio, the balancer returns its input as it is: the feature table
    with the rows of the input in their order, no row added or removed,
    and the label series of the input. *)
Theorem balance_already_balanced (self : BalanceadorClases.t)
    (sampling_strategy : float) (k_neighbors minority majority : Z) :
  target_column self ∈ columns (data self) →
  let y := key_of (target_column self) <$> rows (data self) in
  minority_count y = Ok minority →
  majority_count y = Ok majority →
  (sampling_strategy <=? Z2float minority / Z2float majority)%float = true →
  ∃ X,
    apply_smote_temporal_safe fit_resample self sampling_strategy k_neighbors
      = Ok (X, y) ∧
    columns X = filter (.∉ [target_column self]) (columns (data self)) ∧
    rows X = delete (target_column self) <$> rows (data self) ∧
    length (rows X) = length (rows (data self)) ∧
    length y = length (rows (data self)).
Proof.
  intros Hcol y Hmin Hmaj Hratio.
  eexists. split.
  - rewrite (apply_smote_temporal_safe_unfold _ _ _ _ _ Hcol Hmin Hmaj).
    by rewrite Hratio.
  - simpl. unfold y. by rewrite !length_fmap.
Qed.

Lemma checking_fit_resample_contract :
  fit_resample_contract checking_fit_resample.
Proof.
  intros k s X y minority majority Hmin _ _ Hk.
  unfold checking_fit_resample. rewrite Hmin. simpl.
  destruct (Z.leb_spec minority k); [by eexists|lia].
Qed.

(** C7, amended. When [k_neighbors >= minority_count] the balancer
    replaces it by [max(1, minority_count - 1)], which is never below 1,
    before oversampling. When the minority class has at most one row and
    the ratio is below the target (Fallback A does not apply), the
    balancer neither returns nor skips: it goes on, with
    [k_neighbors = 1], to the oversampler, which cannot work with so few
    rows, and the exception that surfaces is the one raised there (or by
    [int] of the target count), passed on unchanged; the balancer has no
    exception of its own. *)
Theorem balance_clamps_k_neighbors (self : BalanceadorClases.t)
    (sampling_strategy : float) (k_neighbors minority majority : Z) :
  fit_resample_contract fit_resample →
  target_column self ∈ columns (data self) →
  let X := {| columns := filter (.∉ [target_column self]) (columns (data self));
              rows := delete (target_column self) <$> rows (data self) |} in
  let y := key_of (target_column self) <$> rows (data self) in
  minority_count y = Ok minority →
  majority_count y = Ok majority →
  let clamped := Z.max 1 (minority - 1) in
  let ratio_met :=
    (sampling_strategy <=? Z2float minority / Z2float majority)%float in
  let oversample k :=
    py_int (Z2float majority * sampling_strategy)%float
      ≫= fun _ => fit_resample k sampling_strategy X y in
  (minority ≤ k_neighbors →
   1 ≤ clamped ∧
   apply_smote_temporal_safe fit_resample self sampling_strategy k_neighbors
   = if ratio_met then Ok (X, y) else oversample clamped) ∧
  (minority ≤ 1 → 1 ≤ k_neighbors → ratio_met = false →
   apply_smote_temporal_safe fit_resample self sampling_strategy k_neighbors
   = oversample 1 ∧
   ∃ e, oversample 1 = Raise e).
Proof.
  intros Hsmote Hcol X y Hmin Hmaj clamped ratio_met oversample.
  pose proof (apply_smote_temporal_safe_unfold self sampling_strategy
                k_neighbors minority majority Hcol Hmin Hmaj) as Hrun.
  fold X y ratio_met in Hrun. split.
  - intros Hk. split; [lia|]. rewrite Hrun. unfold adjust_k_neighbors.
    destruct (Z.geb_spec k_neighbors minority); [done|lia].
  - intros Hone Hk Hratio. split.
    + rewrite Hrun, Hratio. unfold adjust_k_neighbors, oversample.
      destruct (Z.geb_spec k_neighbors minority); [|lia].
      by replace (Z.max 1 (minority - 1)) with 1 by lia.
    + unfold oversample.
      destruct (py_int _) as [target_minority_count|e]; [|by eexists].
      simpl. apply (Hsmote 1 sampling_strategy X y minority majority);
        [done..|lia].
Qed.

(** C9. The balancing stage assigns the train table and the train labels
    only: the test table and the test labels (and the loaded data) are
    the same before and after, whatever the oversampler returns and also
    when something is raised. *)
Theorem balance_keeps_test_split
    (sort_index : list (value * Z) → result (list (value * Z)))
    (py_sorted : list value → result (list value))
    (int_of_str : string → result Z) (self : Cleaner.t)
    (sampling_strategy : float) (k_neighbors : Z) :
  let self' := snd (Cleaner._balance_classes fit_resample sort_index
                      py_sorted int_of_str sampling_strategy
                      k_neighbors self) in
  Cleaner.x_test self' = Cleaner.x_test self ∧
  Cleaner.y_test self' = Cleaner.y_test self ∧
  Cleaner.data self' = Cleaner.data self.
Proof.
  unfold Cleaner._balance_classes.
  by destruct (_ ≫= _) as [[X_balanced y_balanced]|e].
Qed.

End balancer.

Lemma balance_already_balanced_witness :
  BalanceadorClases.minority_count
    (key_of "is_alcista" <$> rows Cleaner.sample_frame) = Ok 2 ∧
  BalanceadorClases.majority_count
    (key_of "is_alcista" <$> rows Cleaner.sample_frame) = Ok 3 ∧
  ∃ X,
    BalanceadorClases.apply_smote_temporal_safe Cleaner.failing_fit_resample
      sample_balancer 0.5 3
    = Ok (X, key_of "is_alcista" <$> rows Cleaner.sample_frame) ∧
    length (rows X) = 5%nat.
Proof.
  split; [vm_compute; reflexivity|]. split; [vm_compute; reflexivity|].
  destruct (balance_already_balanced Cleaner.failing_fit_resample
              sample_balancer 0.5 3 2 3)
    as (X & Hrun & _ & _ & Hlen & _);
    [vm_compute; in_columns|vm_compute; reflexivity..|].
  by exists X.
Defined.

(** C7, as the spec states it, fails: with 1 row in one class and 3 in
    the other the ratio 1/3 is below the target 0.8, and what surfaces
    is no [InsufficientDataError] (the source defines no such
    exception) but the [ValueError] of the oversampler, which the
    balancer has called with [k_neighbors] clamped to 1. *)
Lemma balance_scarce_minority_value_error :
  BalanceadorClases.minority_count
    (key_of "is_alcista" <$> rows scarce_frame) = Ok 1 ∧
  BalanceadorClases.majority_count
    (key_of "is_alcista" <$> rows scarce_frame) = Ok 3 ∧
  (0.8 <=? Z2float 1 / Z2float 3)%float = false ∧
  BalanceadorClases.apply_smote_temporal_safe
    BalanceadorClases.checking_fit_resample scarce_balancer 0.8 3
  = Raise ValueError ∧
  fst <$> BalanceadorClases.checking_fit_resample 1 0.8 scarce_frame
            (key_of "is_alcista" <$> rows scarce_frame)
  = Raise ValueError.
Proof. repeat split; vm_compute; reflexivity. Qed.

Lemma balance_clamps_k_neighbors_witness :
  Z.max 1 (1 - 1) = 1 ∧
  ∃ e, BalanceadorClases.apply_smote_temporal_safe
         BalanceadorClases.checking_fit_resample scarce_balancer 0.8 3
       = Raise e.
Proof.
  destruct (balance_clamps_k_neighbors BalanceadorClases.checking_fit_resample
              scarce_balancer 0.8 3 1 3) as [_ Hscarce];
    [apply checking_fit_resample_contract|vm_compute; in_columns
    |vm_compute; reflexivity..|].
  split; [reflexivity|].
  destruct Hscarce as (Hrun & e & He); [lia|lia|vm_compute; reflexivity|].
  exists e. rewrite Hrun. exact He.
Defined.

(** * Further properties *)

(** ** Tables *)

Lemma filter_ext_in {A} (P Q : A → Prop) `{∀ x, Decision (P x)}
    `{∀ x, Decision (Q x)} (l : list A) :
  (∀ x, x ∈ l → P x ↔ Q x) → filter P l = filter Q l.
Proof.
  induction l as [|a l IH]; intros Hext; [done|].
  rewrite !filter_cons.
  rewrite IH by (intros x Hx; apply Hext; by right).
  pose proof (Hext a (list_elem_of_here a l)) as Ha.
  destruct (decide (P a)), (decide (Q a)); tauto || done.
Qed.

Lemma filter_true {A} (P : A → Prop) `{∀ x, Decision (P x)} (l : list A) :
  (∀ x, x ∈ l → P x) → filter P l = l.
Proof.
  induction l as [|a l IH]; intros HP; [done|].
  rewrite filter_cons_True by (apply HP; by left).
  f_equal. apply IH. intros x Hx. apply HP. by right.
Qed.

Lemma drop_columns_Ok cols df :
  Forall (.∈ columns df) cols →
  drop_columns cols df = Ok (without_columns cols df).
Proof. intros Hall. unfold drop_columns. by rewrite decide_True. Qed.

Lemma drop_columns_KeyError cols df c :
  c ∈ cols → c ∉ columns df → drop_columns cols df = Raise KeyError.
Proof.
  intros Hc Hnot. unfold drop_columns. rewrite decide_False; [done|].
  intros Hall. rewrite Forall_forall in Hall. by apply Hnot, Hall.
Qed.

Lemma cells_without_columns k cols df :
  k ∉ cols → cells k (rows (without_columns cols df)) = cells k (rows df).
Proof.
  intros Hk. unfold cells. simpl. rewrite <- list_fmap_compose.
  apply list_fmap_ext. intros i r _. simpl.
  by apply lookup_foldr_delete_not_elem_of.
Qed.

Lemma cleaner_eta (self : Cleaner.t) :
  Cleaner.set_x_test (Cleaner.x_test self)
    (Cleaner.set_x_train (Cleaner.x_train self) self) = self.
Proof. by destruct self. Qed.

Lemma without_columns_nil df : without_columns [] df = df.
Proof.
  destruct df as [cols rs]. unfold without_columns. simpl. f_equal.
  - apply filter_true. intros x _. apply not_elem_of_nil.
  - apply list_fmap_id.
Qed.

Lemma forallb_lookup_None (k : string) (rs : list (gmap string value)) :
  forallb (fun r => match r !! k with None => true | Some _ => false end) rs
    = true →
  Forall (fun r => r !! k = None) rs.
Proof.
  induction rs as [|r rs IH]; simpl; [by constructor|].
  intros [Hr Hrs]%andb_true_iff. constructor; [|by apply IH].
  by destruct (r !! k).
Qed.

Lemma zip_with_insert_key (k : string) (rs : list (gmap string value))
    (y : list value) :
  length y = length rs →
  key_of k <$> zip_with (fun r v => <[k := v]> r) rs y = y.
Proof.
  revert y. induction rs as [|r rs IH]; intros [|v y] Hlen; try done.
  simpl in *. unfold key_of at 1. rewrite lookup_insert_eq. simpl.
  f_equal. apply IH. by injection Hlen.
Qed.

Lemma zip_with_insert_delete (k : string) (rs : list (gmap string value))
    (y : list value) :
  length y = length rs → Forall (fun r => r !! k = None) rs →
  delete k <$> zip_with (fun r v => <[k := v]> r) rs y = rs.
Proof.
  revert y. induction rs as [|r rs IH]; intros [|v y] Hlen Hnone; try done.
  apply Forall_cons in Hnone as [Hr Hrs]. simpl in *.
  rewrite delete_insert_id by done. f_equal. apply IH; [by injection Hlen|done].
Qed.

(** ** The grouper: indices, columns and errors *)

Section grouper_more.
Import Grouper.

(** X1. Every group that [_create_groups] builds stays inside the data:
    its train indices are the [W] consecutive indices from some start
    [i], all valid, and its predict index is valid and lies [F] places
    after the last train index (so with [F = 0] the candle to predict is
    the last candle of the window itself). *)
Theorem create_groups_in_range (self : Grouper.t)
    (train_indices : list Z) (predict_index : Z) :
  1 ≤ candle_size_to_traing self → 0 ≤ candle_to_predict self →
  (train_indices, predict_index) ∈ _create_groups self →
  let n := Z.of_nat (length (data self)) in
  ∃ i, 0 ≤ i < n - candle_size_to_traing self - candle_to_predict self ∧
       train_indices = seqZ i (candle_size_to_traing self) ∧
       predict_index
         = i + candle_size_to_traing self - 1 + candle_to_predict self ∧
       (∀ j, j ∈ train_indices → 0 ≤ j < n) ∧
       0 ≤ predict_index < n.
Proof.
  intros HW HF Hin n. unfold _create_groups in Hin.
  apply list_elem_of_fmap in Hin as (i & [= -> ->] & Hi).
  unfold py_range in *. apply elem_of_seqZ in Hi. fold n in Hi.
  exists i. split; [lia|]. split; [f_equal; lia|]. split; [lia|].
  split; [|lia]. intros j Hj%elem_of_seqZ. lia.
Qed.

Lemma create_groups_in_range_witness :
  ([0; 1; 2; 3; 4], 9) ∈ _create_groups (init (sample_data 100 100.02)) ∧
  ∃ i, 0 ≤ i < 1 ∧ [0; 1; 2; 3; 4] = seqZ i 5 ∧ 9 = i + 5 - 1 + 5.
Proof.
  assert (Hin : ([0; 1; 2; 3; 4], 9)
                ∈ _create_groups (init (sample_data 100 100.02)))
    by (vm_compute; by left).
  split; [exact Hin|].
  destruct (create_groups_in_range (init (sample_data 100 100.02))
              [0; 1; 2; 3; 4] 9) as (i & Hi & Htrain & Hpred & _);
    [simpl; lia..|exact Hin|].
  exists i. simpl in Hi. repeat split; try done; lia.
Defined.

Lemma extract_candle_features_keys c q k :
  is_Some (_extract_candle_features c q !! k) → ∃ f, k = feature_column f q.
Proof.
  unfold _extract_candle_features. intros Hk.
  repeat (apply lookup_insert_is_Some in Hk as [<-|[_ Hk]]; [|]).
  - by exists Entrada.
  - by exists Salida.
  - by exists Maximo.
  - by exists Minimo.
  - by exists Retorno.
  - rewrite lookup_empty in Hk. by destruct Hk.
Qed.

Lemma process_group_loop_keys self i (w : nat) row k :
  _process_group_loop self ∅ (enumerate 1 (py_range i (i + Z.of_nat w)))
    = Ok row →
  is_Some (row !! k) → ∃ f p, 1 ≤ p ≤ Z.of_nat w ∧ k = feature_column f p.
Proof.
  revert row. induction w as [|w IH]; intros row.
  - unfold enumerate, py_range.
    replace (i + Z.of_nat 0 - i) with 0 by lia. simpl.
    intros [= <-]. rewrite lookup_empty. by intros [].
  - rewrite enumerate_window_S, process_group_loop_snoc.
    intros (row' & Hrow' & (c & _ & [= <-])%bind_Ok)%bind_Ok.
    intros [Hk|Hk]%lookup_union_is_Some.
    + apply extract_candle_features_keys in Hk as [f ->].
      exists f, (1 + Z.of_nat w). split; [lia|done].
    + destruct (IH row' Hrow' Hk) as (f & p & Hp & ->).
      exists f, p. split; [lia|done].
Qed.

(** X2. A row of the grouper's output has the five columns of each window
    position 1..[W], the seven date columns and the label, and no other
    column. *)
Theorem grouper_row_columns (self : Grouper.t) (i : Z) :
  1 ≤ candle_size_to_traing self → 0 ≤ candle_to_predict self →
  0 ≤ i < Z.of_nat (length (data self)) - candle_size_to_traing self
          - candle_to_predict self →
  ∃ rows row,
    group self = Ok rows ∧ rows !! Z.to_nat i = Some row ∧
    ∀ k, is_Some (row !! k) ↔
         k ∈ ["fecha"; "hora_inicial"; "hora_final"; "dia"; "mes"; "anio";
              "dia_semana"; "is_alcista"]
         ∨ ∃ f p, 1 ≤ p ≤ candle_size_to_traing self ∧ k = feature_column f p.
Proof.
  intros HW HF Hi.
  destruct (group_rows self HW HF) as (rows & Hrows & _ & Hnth).
  destruct (Hnth i Hi) as (row & Hrow & Hproc).
  destruct (process_group_window self i HW HF Hi)
    as (row' & last & fut & Hproc' & [Hfeat Hdates] & _ & _ & Hlabel).
  assert (row' = row) as -> by congruence. clear Hproc'.
  exists rows, row. split; [done|]. split; [done|].
  intros k. split.
  - unfold _process_group in Hproc.
    apply bind_Ok in Hproc as (cs & _ & Hproc).
    apply bind_Ok in Hproc as (fut' & _ & Hproc).
    apply bind_Ok in Hproc as (row0 & Hloop & Hproc).
    apply bind_Ok in Hproc as (row1 & Hd & Hproc).
    unfold _calculate_dates in Hd.
    apply bind_Ok in Hd as (first & _ & [= <-]).
    unfold _calculate_predict_candle in Hproc.
    apply bind_Ok in Hproc as (lp & _ & [= <-]).
    intros Hk.
    repeat (apply lookup_insert_is_Some in Hk as [<-|[_ Hk]];
            [left; in_columns|]).
    right.
    replace (candle_size_to_traing self)
      with (Z.of_nat (Z.to_nat (candle_size_to_traing self))) in Hloop |- *
      by lia.
    by eapply process_group_loop_keys.
  - intros [Hk|(f & p & Hp & ->)].
    + destruct Hdates as (c & _ & H1 & H2 & H3 & H4 & H5 & H6 & H7).
      repeat (apply elem_of_cons in Hk as [->|Hk]; [by eexists|]).
      by apply elem_of_nil in Hk.
    + destruct (Hfeat p Hp) as (c & _ & Hf). by eexists.
Qed.

Lemma grouper_row_columns_witness :
  ∃ rows row,
    group (init (sample_data 100 100.02)) = Ok rows ∧
    rows !! 0%nat = Some row ∧
    row !! "velas_alcistas" = None ∧ is_Some (row !! "Max_vela_5").
Proof.
  destruct (grouper_row_columns (init (sample_data 100 100.02)) 0)
    as (rows & row & Hrows & Hrow & Hkeys); [simpl; lia..|].
  exists rows, row. split; [done|]. split; [done|]. split.
  - apply eq_None_not_Some. intros [Hk|(f & p & _ & Hk)]%Hkeys.
    + repeat (apply elem_of_cons in Hk as [Hk|Hk]; [discriminate Hk|]).
      by apply elem_of_nil in Hk.
    + by destruct f.
  - apply Hkeys. right. exists Maximo, 5. split; [simpl; lia|].
    vm_compute. reflexivity.
Defined.

Lemma iloc_out_of_range {A} (l : list A) (k : Z) :
  k < - Z.of_nat (length l) ∨ Z.of_nat (length l) ≤ k →
  iloc l k = Raise IndexError.
Proof.
  intros Hk. unfold iloc.
  destruct (Z.ltb_spec k 0), (Z.leb_spec 0 (Z.of_nat (length l) + k)),
    (Z.leb_spec 0 k), (Z.ltb_spec k (Z.of_nat (length l)));
    simpl; try done; lia.
Qed.

Lemma iloc_raises_IndexError {A} (l : list A) (k : Z) e :
  iloc l k = Raise e → e = IndexError.
Proof.
  unfold iloc. destruct (_ && _); [|by intros [= <-]].
  destruct (l !! _); [done|by intros [= <-]].
Qed.

Lemma traverse_iloc_raises {A} (l : list A) (js : list Z) e :
  traverse (iloc l) js = Raise e → e = IndexError.
Proof.
  induction js as [|j js IH]; simpl; [done|].
  destruct (iloc l j) eqn:Hj; simpl.
  - destruct (traverse (iloc l) js); simpl; [done|].
    intros [= <-]. by apply IH.
  - intros [= <-]. by eapply iloc_raises_IndexError.
Qed.

Lemma traverse_iloc_out_of_range {A} (l : list A) (js : list Z) j :
  j ∈ js → j < - Z.of_nat (length l) ∨ Z.of_nat (length l) ≤ j →
  traverse (iloc l) js = Raise IndexError.
Proof.
  intros Hin Hj.
  destruct (traverse (iloc l) js) as [cs|e] eqn:Hcs.
  - apply list_elem_of_lookup in Hin as [i Hi].
    destruct (traverse_lookup _ _ _ _ _ Hcs Hi) as (c & _ & Hc).
    by rewrite iloc_out_of_range in Hc.
  - f_equal. by eapply traverse_iloc_raises.
Qed.

(** X3. A group with an index outside [[-n, n)], among the train indices
    or as the predict index, makes [_process_group] raise [IndexError]:
    it never returns a row built from a missing candle. *)
Theorem process_group_out_of_range (self : Grouper.t)
    (train_indices : list Z) (predict_index j : Z) :
  j ∈ predict_index :: train_indices →
  j < - Z.of_nat (length (data self)) ∨ Z.of_nat (length (data self)) ≤ j →
  _process_group self train_indices predict_index = Raise IndexError.
Proof.
  intros Hin Hj. unfold _process_group.
  destruct (traverse (iloc (data self)) train_indices) as [cs|e] eqn:Hcs.
  - simpl. apply elem_of_cons in Hin as [->|Hin].
    + by rewrite iloc_out_of_range.
    + by rewrite (traverse_iloc_out_of_range _ _ j) in Hcs.
  - simpl. f_equal. by eapply traverse_iloc_raises.
Qed.

Lemma process_group_out_of_range_witness :
  _process_group (init (sample_data 100 100.02)) [7; 8; 9; 10; 11] 16
  = Raise IndexError.
Proof.
  apply (process_group_out_of_range _ _ _ 11).
  - in_columns.
  - right. simpl. lia.
Defined.

Lemma process_group_no_candles self predict_index :
  _process_group self [] predict_index = Raise IndexError.
Proof.
  unfold _process_group. simpl.
  destruct (iloc (data self) predict_index) as [c|e] eqn:Hc; simpl.
  - reflexivity.
  - f_equal. by eapply iloc_raises_IndexError.
Qed.

(** X4. With a window size of 0 and at least one group ([N - F > 0]) the
    grouper raises [IndexError]: the empty window has no first candle for
    the date columns. *)
Theorem grouper_empty_window_raises (self : Grouper.t) :
  candle_size_to_traing self = 0 →
  0 < Z.of_nat (length (data self)) - candle_to_predict self →
  group self = Raise IndexError.
Proof.
  intros HW Hn. unfold group, _create_dataframe_from_groups, _create_groups.
  rewrite HW. unfold py_range.
  rewrite (seqZ_cons 0 (Z.of_nat (length (data self)) - 0
                        - candle_to_predict self - 0)) by lia.
  rewrite fmap_cons. cbn [traverse].
  change (seqZ 0 (0 + 0 - 0)) with (@nil Z).
  by rewrite process_group_no_candles.
Qed.

Lemma grouper_empty_window_raises_witness :
  group {| candle_size_to_traing := 0; candle_to_predict := 5;
           percentage_return_threshold := 0.0001;
           data := sample_data 100 100.02 |}
  = Raise IndexError.
Proof. apply grouper_empty_window_raises; simpl; [reflexivity|lia]. Defined.

End grouper_more.

(** ** The date column of the grouper *)

Section grouper_dates.
Import Grouper.

Variable str_of_float : float → string.
Variable to_datetime : list value → result (list value).

Lemma DataFrame_of_records_columns records k :
  k ∈ columns (DataFrame_of_records records)
  ↔ ∃ r, r ∈ records ∧ is_Some (r !! k).
Proof.
  unfold DataFrame_of_records. simpl.
  rewrite elem_of_elements, elem_of_union_list. split.
  - intros (X & (r & -> & Hr)%list_elem_of_fmap & Hk).
    exists r. split; [done|]. by apply elem_of_dom.
  - intros (r & Hr & Hk). exists (dom r). split.
    + apply list_elem_of_fmap. eauto.
    + by apply elem_of_dom.
Qed.

Lemma group_empty self :
  Z.of_nat (length (data self)) - candle_size_to_traing self
    - candle_to_predict self ≤ 0 →
  group self = Ok [].
Proof.
  intros Hn. unfold group, _create_groups, py_range.
  by rewrite seqZ_nil by lia.
Qed.

(** X5. When there are too few candles for one window
    ([N - W - F <= 0]), [main] does not produce an empty table: the
    table built from no rows has no columns, and reading its ['fecha']
    column for the date column raises [KeyError]. *)
Theorem grouper_main_too_few_candles (self : Grouper.t) :
  Z.of_nat (length (data self)) - candle_size_to_traing self
    - candle_to_predict self ≤ 0 →
  Grouper_main str_of_float to_datetime self = Raise KeyError.
Proof.
  intros Hn. unfold Grouper_main. rewrite (group_empty self Hn). simpl.
  unfold _create_date_column, getcol.
  rewrite decide_False; [done|].
  rewrite DataFrame_of_records_columns. intros (r & Hr & _).
  by apply elem_of_nil in Hr.
Qed.

Lemma group_first_candles self :
  1 ≤ candle_size_to_traing self → 0 ≤ candle_to_predict self →
  ∃ rows,
    group self = Ok rows ∧
    length rows
    = Z.to_nat (Z.of_nat (length (data self)) - candle_size_to_traing self
                - candle_to_predict self) ∧
    ∀ i row, rows !! i = Some row →
      ∃ c, data self !! i = Some c ∧
           row !! "fecha" = Some (VStr (fecha c)) ∧
           row !! "hora_inicial" = Some (VStr (hora_inicial c)).
Proof.
  intros HW HF.
  destruct (group_rows self HW HF) as (rows & Hrows & Hlen & Hnth).
  exists rows. split; [done|]. split; [done|].
  intros i row Hrow.
  assert (Hi : 0 ≤ Z.of_nat i
               < Z.of_nat (length (data self)) - candle_size_to_traing self
                 - candle_to_predict self).
  { apply lookup_lt_Some in Hrow. lia. }
  destruct (Hnth _ Hi) as (row' & Hrow' & Hproc).
  rewrite Nat2Z.id in Hrow'. assert (row' = row) as -> by congruence.
  destruct (process_group_window self _ HW HF Hi)
    as (row'' & _ & _ & Hproc' & [_ Hdates] & _).
  assert (row'' = row) as -> by congruence.
  destruct Hdates as (c & Hc & Hf & Hh & _).
  rewrite Nat2Z.id in Hc. eauto.
Qed.

Lemma traverse_str_add (cs : list Candle) :
  traverse (fun '(a, b) => str_add a b)
    (zip ((fun v => astype_str str_of_float v +:+ " ")
            <$> ((fun c => VStr (fecha c)) <$> cs))
         ((fun c => VStr (hora_inicial c)) <$> cs))
  = Ok (date_text <$> cs).
Proof.
  induction cs as [|c cs IH]; [done|].
  rewrite !fmap_cons. cbn [zip_with traverse]. rewrite IH. done.
Qed.

Lemma zip_with_insert_cells (k col : string) (rs : list (gmap string value))
    (y : list value) :
  k ≠ col → length y = length rs →
  cells k (zip_with (fun r v => <[col := v]> r) rs y) = cells k rs.
Proof.
  intros Hk. revert y.
  induction rs as [|r rs IH]; intros [|v y] Hlen; try done.
  unfold cells in *. simpl in *. rewrite lookup_insert_ne by done.
  f_equal. apply IH. by injection Hlen.
Qed.

(** X6. When there is at least one window, the date column of row [i] is
    made from the first candle of its window, the candle at source index
    [i]: [main] hands [to_datetime] the texts "fecha hora_inicial" of the
    first [N - W - F] candles, in order; what [to_datetime] raises,
    [main] raises, and what it returns becomes the column ['date'] of
    the grouped table, whose other cells are those of the grouped
    rows. *)
Theorem grouper_main_dates (self : Grouper.t) :
  to_datetime_contract to_datetime →
  1 ≤ candle_size_to_traing self → 0 ≤ candle_to_predict self →
  0 < Z.of_nat (length (data self)) - candle_size_to_traing self
      - candle_to_predict self →
  let texts :=
    date_text
      <$> take (Z.to_nat (Z.of_nat (length (data self))
                          - candle_size_to_traing self
                          - candle_to_predict self)) (data self) in
  ∃ grouped,
    group self = Ok grouped ∧
    match to_datetime texts with
    | Ok dates =>
        ∃ dataframe,
          Grouper_main str_of_float to_datetime self = Ok dataframe ∧
          getcol "date" dataframe = Ok dates ∧
          ∀ k, k ≠ "date" → cells k (rows dataframe) = cells k grouped
    | Raise e => Grouper_main str_of_float to_datetime self = Raise e
    end.
Proof.
  intros Hcontract HW HF Hn texts.
  destruct (group_first_candles self HW HF) as (grouped & Hrows & Hlen & Hnth).
  exists grouped. split; [done|].
  subst texts. set (n := Z.to_nat _) in *.
  assert (Hcol : ∀ k (g : Candle → string),
            (∀ i row, grouped !! i = Some row →
               ∃ c, data self !! i = Some c ∧ row !! k = Some (VStr (g c))) →
            getcol k (DataFrame_of_records grouped)
            = Ok ((fun c => VStr (g c)) <$> take n (data self))).
  { intros k g Hk. unfold getcol. rewrite decide_True.
    - f_equal. simpl. apply list_eq. intros i.
      rewrite !list_lookup_fmap.
      destruct (grouped !! i) as [row|] eqn:Hrow; simpl.
      + destruct (Hk i row Hrow) as (c & Hc & Hcell).
        rewrite lookup_take_lt by (apply lookup_lt_Some in Hrow; lia).
        rewrite Hc. simpl. by rewrite Hcell.
      + rewrite lookup_take_ge; [done|].
        apply lookup_ge_None in Hrow. lia.
    - apply DataFrame_of_records_columns.
      destruct (grouped !! 0%nat) as [row|] eqn:Hrow.
      + destruct (Hk _ _ Hrow) as (c & _ & Hcell).
        exists row. split; [by eapply list_elem_of_lookup_2|by eexists].
      + apply lookup_ge_None in Hrow. lia. }
  unfold Grouper_main. rewrite Hrows. simpl. unfold _create_date_column.
  rewrite (Hcol "fecha" fecha), (Hcol "hora_inicial" hora_inicial).
  2:{ intros i row Hrow. destruct (Hnth i row Hrow) as (c & ? & ? & ?). eauto. }
  2:{ intros i row Hrow. destruct (Hnth i row Hrow) as (c & ? & ? & ?). eauto. }
  simpl. rewrite traverse_str_add. simpl.
  destruct (to_datetime (date_text <$> take n (data self)))
    as [dates|e] eqn:Hdates; [|done].
  assert (Hdlen : length dates = length grouped).
  { rewrite (Hcontract _ _ Hdates), length_fmap, length_take. lia. }
  unfold setcol. simpl. rewrite decide_True by done.
  eexists. split; [done|]. split.
  - rewrite getcol_Ok.
    + simpl. by rewrite zip_with_insert_key.
    + simpl. case_decide; [done|]. apply elem_of_app. right. by left.
  - intros k Hk. simpl. by apply zip_with_insert_cells.
Qed.

End grouper_dates.

Lemma grouper_main_too_few_candles_witness :
  Grouper_main (fun _ => "") (fun texts => Ok texts)
    (Grouper.init (replicate 10 (Grouper.candle_of 100 100)))
  = Raise KeyError.
Proof. apply grouper_main_too_few_candles. simpl. lia. Defined.

Lemma grouper_main_dates_witness :
  ∃ dataframe,
    Grouper_main (fun _ => "") (fun texts => Ok texts)
      (Grouper.init (Grouper.sample_data 100 100.02))
    = Ok dataframe ∧
    getcol "date" dataframe = Ok [VStr "2024-01-01 00:00:00"].
Proof.
  destruct (grouper_main_dates (fun _ => "") (fun texts => Ok texts)
              (Grouper.init (Grouper.sample_data 100 100.02)))
    as (grouped & _ & dataframe & Hmain & Hdate & _).
  - intros texts dates [= <-]. reflexivity.
  - simpl. lia.
  - simpl. lia.
  - simpl. lia.
  - exists dataframe. split; [exact Hmain|]. rewrite Hdate. reflexivity.
Defined.

(** ** The partition *)

Section partition.
Import Cleaner.

Variable sort_values : string → frame → result frame.

Lemma slice_bound_length {A B} (l : list A) (l' : list B) (k : Z) :
  length l = length l' → slice_bound l k = slice_bound l' k.
Proof. intros Hlen. unfold slice_bound. by rewrite Hlen. Qed.

(** X7. The partition loses nothing and keeps features and labels
    aligned: train followed by test is the sorted table without its label
    column, the train labels followed by the test labels are the labels
    of the same sorted rows, each table has as many rows as its label
    series, both tables have the same columns, and the label is not one
    of them. The sorted table, a rearrangement of the loaded rows,
    replaces the loaded data. *)
Theorem partition_keeps_every_row (self self' : Cleaner.t)
    (date_column : string) (random_state : Z)
    (x_train x_test : frame) (y_train y_test : list value) :
  sort_values_contract sort_values →
  partition_data sort_values date_column random_state self
    = (Ok (x_train, x_test, y_train, y_test), self') →
  rows (data self') ≡ₚ rows (data self) ∧
  rows x_train ++ rows x_test = delete "is_alcista" <$> rows (data self') ∧
  y_train ++ y_test = key_of "is_alcista" <$> rows (data self') ∧
  length (rows x_train) = length y_train ∧
  length (rows x_test) = length y_test ∧
  columns x_train = columns x_test ∧
  "is_alcista" ∉ columns x_train.
Proof.
  intros Hsort Hpart.
  apply partition_data_inv in Hpart
    as (sorted & y & x & k & Hsorted & -> & Hy & Hx & _ & [= -> -> -> ->]).
  destruct (Hsort _ _ _ Hsorted) as (_ & Hperm & _).
  pose proof (drop_columns_one_rows _ _ _ Hx) as Hrows.
  unfold getcol in Hy. case_decide; [|done]. injection Hy as <-.
  fold (key_of "is_alcista").
  unfold drop_columns in Hx. case_decide; [|done]. injection Hx as <-.
  simpl. unfold iloc_to, iloc_from.
  assert (Hb : ∀ A (f : gmap string value → A),
            slice_bound (f <$> rows sorted) k = slice_bound (rows sorted) k).
  { intros. apply slice_bound_fmap. }
  rewrite !Hb. rewrite !take_drop, !length_take, !length_drop, !length_fmap.
  repeat split; try done.
  rewrite list_elem_of_filter. intros [Hnot _]. apply Hnot. by left.
Qed.

(** X8. When the loaded data has no [is_alcista] column, [partition_data]
    raises [KeyError], and the loaded data has by then been replaced by
    its sorted version. *)
Theorem partition_without_label_column (self : Cleaner.t)
    (date_column : string) (random_state : Z) (sorted : frame) :
  sort_values_contract sort_values →
  sort_values date_column (data self) = Ok sorted →
  "is_alcista" ∉ columns (data self) →
  partition_data sort_values date_column random_state self
  = (Raise KeyError, set_data sorted self).
Proof.
  intros Hsort Hsorted Hcol. unfold partition_data. rewrite Hsorted. simpl.
  destruct (Hsort _ _ _ Hsorted) as (Hcols & _ & _).
  unfold getcol. rewrite decide_False; [done|]. by rewrite Hcols.
Qed.

End partition.

Lemma partition_keeps_every_row_witness :
  sort_values_contract stable_sort_values ∧
  is_Some (match fst (Cleaner.partition_data stable_sort_values "date" 42
                        (Cleaner.init Cleaner.sample_frame 0.2 false)) with
           | Ok res => Some res | Raise _ => None end) ∧
  length (Cleaner.y_train Cleaner.sample_cleaner) = 4%nat.
Proof.
  split; [apply stable_sort_values_contract|].
  split; [vm_compute; eauto|].
  set (self := Cleaner.init Cleaner.sample_frame 0.2 false).
  set (p := Cleaner.partition_data stable_sort_values "date" 42 self).
  set (res := get_Ok (Cleaner.data self, Cleaner.data self, [], []) (fst p)).
  destruct (partition_keeps_every_row stable_sort_values self (snd p) "date" 42
              res.1.1.1 res.1.1.2 res.1.2 res.2 stable_sort_values_contract)
    as (_ & _ & _ & Hlen & _).
  - vm_compute. reflexivity.
  - change (Cleaner.y_train Cleaner.sample_cleaner) with res.1.2 at 1.
    rewrite <- Hlen. vm_compute. reflexivity.
Defined.

Lemma partition_without_label_column_witness :
  fst (Cleaner.partition_data stable_sort_values "date" 42
         (Cleaner.init unlabeled_frame 0.2 false))
  = Raise KeyError.
Proof.
  rewrite (partition_without_label_column stable_sort_values _ "date" 42
             (get_Ok unlabeled_frame (stable_sort_values "date" unlabeled_frame))).
  - reflexivity.
  - apply stable_sort_values_contract.
  - vm_compute. reflexivity.
  - vm_compute. intros Hin.
    repeat (apply elem_of_cons in Hin as [Hin|Hin]; [discriminate Hin|]).
    by apply elem_of_nil in Hin.
Defined.

(** ** The balancing stage *)

(** ** The temporal-column filter *)

Section temporal.
Import Cleaner.

Lemma filter_none {A} (P : A → Prop) `{∀ x, Decision (P x)} (l : list A) :
  (∀ x, x ∈ l → ¬ P x) → filter P l = [].
Proof.
  induction l as [|a l IH]; intros HP; [done|].
  rewrite filter_cons_False by (apply HP; by left).
  apply IH. intros x Hx. apply HP. by right.
Qed.

Lemma columns_to_drop_in df c :
  c ∈ columns_to_drop df ↔ c ∈ temporal_columns ∧ c ∈ columns df.
Proof. unfold columns_to_drop. rewrite list_elem_of_filter. tauto. Qed.

Lemma filter_columns_to_drop df :
  filter (.∉ columns_to_drop df) (columns df)
  = filter (.∉ temporal_columns) (columns df).
Proof.
  apply filter_ext_in. intros c Hc. rewrite columns_to_drop_in. tauto.
Qed.

Lemma handle_temporal_columns_Ok self :
  include_data_time self = false →
  (∀ c, c ∈ temporal_columns → c ∈ columns (x_train self) →
        c ∈ columns (x_test self)) →
  _handle_temporal_columns self
  = (Ok (),
     set_x_test (without_columns (columns_to_drop (x_train self)) (x_test self))
       (set_x_train
          (without_columns (columns_to_drop (x_train self)) (x_train self))
          self)).
Proof.
  intros Hinc Htest. unfold _handle_temporal_columns. rewrite Hinc.
  fold temporal_columns. fold (columns_to_drop (x_train self)).
  destruct (columns_to_drop (x_train self)) as [|c cs] eqn:Hdrop.
  - by rewrite !without_columns_nil, cleaner_eta.
  - rewrite <- Hdrop.
    rewrite drop_columns_Ok.
    2:{ apply Forall_forall. by intros x [_ ?]%columns_to_drop_in. }
    simpl. rewrite drop_columns_Ok; [done|].
    apply Forall_forall. intros x [? ?]%columns_to_drop_in. by apply Htest.
Qed.

(** X10. With [include_data_time = False], and a test table that has the
    temporal columns of the train table, [_handle_temporal_columns]
    succeeds and drops exactly the temporal columns: no temporal column
    is left in the train table, every other column stays in both tables
    with all its cells, and the labels and the loaded data are not
    touched. *)
Theorem handle_temporal_columns_strips (self : Cleaner.t) :
  include_data_time self = false →
  (∀ c, c ∈ temporal_columns → c ∈ columns (x_train self) →
        c ∈ columns (x_test self)) →
  ∃ self',
    _handle_temporal_columns self = (Ok (), self') ∧
    columns (x_train self')
      = filter (.∉ temporal_columns) (columns (x_train self)) ∧
    (∀ c, c ∈ temporal_columns → c ∉ columns (x_train self')) ∧
    (∀ c, c ∉ temporal_columns →
       (c ∈ columns (x_test self') ↔ c ∈ columns (x_test self)) ∧
       cells c (rows (x_train self')) = cells c (rows (x_train self)) ∧
       cells c (rows (x_test self')) = cells c (rows (x_test self))) ∧
    y_train self' = y_train self ∧ y_test self' = y_test self ∧
    data self' = data self.
Proof.
  intros Hinc Htest. eexists. split; [by apply handle_temporal_columns_Ok|].
  simpl. split; [apply filter_columns_to_drop|]. split; [|split; [|done]].
  - intros c Hc. rewrite filter_columns_to_drop, list_elem_of_filter. tauto.
  - intros c Hc.
    assert (c ∉ columns_to_drop (x_train self))
      by (rewrite columns_to_drop_in; tauto).
    split; [|split; by apply cells_without_columns].
    rewrite list_elem_of_filter. tauto.
Qed.

Lemma handle_temporal_columns_strips_witness :
  ∃ self',
    _handle_temporal_columns sample_cleaner = (Ok (), self') ∧
    columns (x_train self') = ["salida_vela_1"] ∧
    cells "salida_vela_1" (rows (x_test self')) = [Some (VFloat 104)].
Proof.
  destruct (handle_temporal_columns_strips sample_cleaner)
    as (self' & Hrun & Hcols & _ & Hcells & _).
  - reflexivity.
  - intros c _. vm_compute. tauto.
  - exists self'. split; [exact Hrun|]. split.
    + rewrite Hcols. vm_compute. reflexivity.
    + destruct (Hcells "salida_vela_1") as (_ & _ & ->).
      * vm_compute. intros Hin.
        repeat (apply elem_of_cons in Hin as [Hin|Hin]; [discriminate Hin|]).
        by apply elem_of_nil in Hin.
      * vm_compute. reflexivity.
Defined.

(** X11. [_handle_temporal_columns] is idempotent: once it has succeeded, a
    second run finds nothing to remove and leaves the object as it is. *)
Theorem handle_temporal_columns_idempotent (self self' : Cleaner.t) :
  _handle_temporal_columns self = (Ok (), self') →
  _handle_temporal_columns self' = (Ok (), self').
Proof.
  unfold _handle_temporal_columns at 1.
  destruct (include_data_time self) eqn:Hinc.
  { intros [= <-]. unfold _handle_temporal_columns. by rewrite Hinc. }
  fold temporal_columns. fold (columns_to_drop (x_train self)).
  destruct (columns_to_drop (x_train self)) as [|c cs] eqn:Hdrop.
  { intros [= <-]. unfold _handle_temporal_columns. rewrite Hinc.
    fold temporal_columns. fold (columns_to_drop (x_train self)).
    by rewrite Hdrop. }
  rewrite <- Hdrop.
  destruct (drop_columns _ (x_train self)) as [x|e] eqn:Hx; [|done].
  simpl. destruct (drop_columns _ (x_test self)) as [x'|e] eqn:Hx'; [|done].
  intros [= <-].
  unfold drop_columns in Hx. case_decide; [|done]. injection Hx as <-.
  unfold _handle_temporal_columns. simpl. rewrite Hinc.
  fold temporal_columns.
  rewrite filter_columns_to_drop.
  rewrite filter_none; [done|].
  intros t Ht Hin.
  apply list_elem_of_filter in Hin as [Hnot _]. by apply Hnot.
Qed.

Lemma handle_temporal_columns_idempotent_witness :
  ∃ self',
    _handle_temporal_columns sample_cleaner = (Ok (), self') ∧
    _handle_temporal_columns self' = (Ok (), self').
Proof.
  destruct (_handle_temporal_columns sample_cleaner) as [[[]|e] self'] eqn:Hrun;
    [|by vm_compute in Hrun].
  exists self'. split; [done|].
  by apply (handle_temporal_columns_idempotent sample_cleaner).
Defined.

(** X12. When the test table lacks a temporal column that the train table
    has, [_handle_temporal_columns] raises [KeyError] after it has
    already stripped the train table: the object is left half updated. *)
Theorem handle_temporal_columns_partial (self : Cleaner.t) (c : string) :
  include_data_time self = false →
  c ∈ temporal_columns → c ∈ columns (x_train self) →
  c ∉ columns (x_test self) →
  _handle_temporal_columns self
  = (Raise KeyError,
     set_x_train
       (without_columns (columns_to_drop (x_train self)) (x_train self)) self).
Proof.
  intros Hinc Ht Htrain Htest. unfold _handle_temporal_columns. rewrite Hinc.
  fold temporal_columns. fold (columns_to_drop (x_train self)).
  assert (Hc : c ∈ columns_to_drop (x_train self))
    by (by apply columns_to_drop_in).
  destruct (columns_to_drop (x_train self)) as [|d ds] eqn:Hdrop.
  { by apply elem_of_nil in Hc. }
  rewrite <- Hdrop in *.
  rewrite drop_columns_Ok.
  2:{ apply Forall_forall. by intros x [_ ?]%columns_to_drop_in. }
  simpl. by rewrite (drop_columns_KeyError _ _ c).
Qed.

Lemma handle_temporal_columns_partial_witness :
  fst (_handle_temporal_columns sample_cleaner_short_test) = Raise KeyError ∧
  columns (x_train (snd (_handle_temporal_columns sample_cleaner_short_test)))
  = ["salida_vela_1"].
Proof.
  rewrite (handle_temporal_columns_partial sample_cleaner_short_test
             "dia_semana").
  - split; vm_compute; reflexivity.
  - reflexivity.
  - vm_compute. in_columns.
  - vm_compute. in_columns.
  - vm_compute. intros Hin.
    repeat (apply elem_of_cons in Hin as [Hin|Hin]; [discriminate Hin|]).
    by apply elem_of_nil in Hin.
Defined.

End temporal.

(** ** The encoder and the stages around it *)

Section encoder_frame.
Import Cleaner.

Lemma encode_column_encoded_frame df :
  "dia_semana" ∈ columns df →
  (col ← getcol "dia_semana" df;
   setcol "dia_semana" (Series_map day_mapping col) df)
  = Ok (encoded_frame df).
Proof. apply encode_column_Ok. Qed.

Lemma encode_column_KeyError df :
  "dia_semana" ∉ columns df →
  (col ← getcol "dia_semana" df;
   setcol "dia_semana" (Series_map day_mapping col) df)
  = Raise KeyError.
Proof. intros Hcol. unfold getcol. by rewrite decide_False. Qed.

Lemma encode_dia_semana_ordinal_state self :
  "dia_semana" ∈ columns (x_train self) →
  "dia_semana" ∈ columns (x_test self) →
  encode_dia_semana_ordinal self
  = (Ok (), set_x_test (encoded_frame (x_test self))
              (set_x_train (encoded_frame (x_train self)) self)).
Proof.
  intros Htrain Htest. unfold encode_dia_semana_ordinal.
  rewrite decide_True by done.
  rewrite (encode_column_encoded_frame _ Htrain). simpl.
  by rewrite (encode_column_encoded_frame _ Htest).
Qed.

Lemma cells_encoded_frame k df :
  k ≠ "dia_semana" → cells k (rows (encoded_frame df)) = cells k (rows df).
Proof.
  intros Hk. unfold cells. simpl. rewrite <- list_fmap_compose.
  apply list_fmap_ext. intros i r _. simpl. by rewrite lookup_insert_ne.
Qed.

(** X13. When the encoder runs, it rewrites the day-of-week column and
    nothing else: both tables keep their columns and their number of
    rows, every cell of every other column is unchanged, and the labels
    and the loaded data are not touched. *)
Theorem encoder_changes_one_column (self : Cleaner.t) :
  "dia_semana" ∈ columns (x_train self) →
  "dia_semana" ∈ columns (x_test self) →
  ∃ self',
    encode_dia_semana_ordinal self = (Ok (), self') ∧
    columns (x_train self') = columns (x_train self) ∧
    columns (x_test self') = columns (x_test self) ∧
    length (rows (x_train self')) = length (rows (x_train self)) ∧
    length (rows (x_test self')) = length (rows (x_test self)) ∧
    (∀ k, k ≠ "dia_semana" →
       cells k (rows (x_train self')) = cells k (rows (x_train self)) ∧
       cells k (rows (x_test self')) = cells k (rows (x_test self))) ∧
    y_train self' = y_train self ∧ y_test self' = y_test self ∧
    data self' = data self.
Proof.
  intros Htrain Htest. eexists.
  split; [by apply encode_dia_semana_ordinal_state|]. simpl.
  rewrite !length_fmap. repeat split; try done;
    by apply cells_encoded_frame.
Qed.

Lemma encoder_changes_one_column_witness :
  ∃ self',
    encode_dia_semana_ordinal sample_cleaner = (Ok (), self') ∧
    cells "salida_vela_1" (rows (x_test self')) = [Some (VFloat 104)].
Proof.
  destruct (encoder_changes_one_column sample_cleaner)
    as (self' & Hrun & _ & _ & _ & _ & Hcells & _);
    [vm_compute; in_columns..|].
  exists self'. split; [exact Hrun|].
  destruct (Hcells "salida_vela_1") as [_ ->]; [discriminate|].
  vm_compute. reflexivity.
Defined.

(** X14. When the train table has the day-of-week column and the test
    table does not, the encoder raises [KeyError] after it has already
    encoded the train table: the object is left half updated. *)
Theorem encoder_partial_update (self : Cleaner.t) :
  "dia_semana" ∈ columns (x_train self) →
  "dia_semana" ∉ columns (x_test self) →
  encode_dia_semana_ordinal self
  = (Raise KeyError, set_x_train (encoded_frame (x_train self)) self).
Proof.
  intros Htrain Htest. unfold encode_dia_semana_ordinal.
  rewrite decide_True by done.
  rewrite (encode_column_encoded_frame _ Htrain). simpl.
  by rewrite (encode_column_KeyError _ Htest).
Qed.

Lemma encoder_partial_update_witness :
  fst (encode_dia_semana_ordinal sample_cleaner_short_test) = Raise KeyError ∧
  cells "dia_semana"
    (rows (x_train (snd (encode_dia_semana_ordinal sample_cleaner_short_test))))
  = [Some (VInt 0); Some (VInt 0); Some (VInt 0); Some (VInt 0)].
Proof.
  rewrite (encoder_partial_update sample_cleaner_short_test).
  - split; vm_compute; reflexivity.
  - vm_compute. in_columns.
  - vm_compute. intros Hin.
    repeat (apply elem_of_cons in Hin as [Hin|Hin]; [discriminate Hin|]).
    by apply elem_of_nil in Hin.
Defined.

Lemma without_columns_encoded_frame cols df :
  "dia_semana" ∈ cols →
  without_columns cols (encoded_frame df) = without_columns cols df.
Proof.
  intros Hin. unfold without_columns. simpl. f_equal.
  rewrite <- list_fmap_compose. apply list_fmap_ext. intros i r _. simpl.
  by apply foldr_delete_insert_in.
Qed.

(** X15. With [include_data_time = False] the encoding is thrown away: the
    temporal-column filter that follows removes the encoded column, so
    running the encoder and then the filter leaves the same object, with
    the same outcome, as running the filter alone. *)
Theorem encoder_then_filter (self : Cleaner.t) :
  include_data_time self = false →
  "dia_semana" ∈ columns (x_train self) →
  (∀ c, c ∈ temporal_columns → c ∈ columns (x_train self) →
        c ∈ columns (x_test self)) →
  and_then encode_dia_semana_ordinal (fun _ => _handle_temporal_columns) self
  = _handle_temporal_columns self.
Proof.
  intros Hinc Htrain Htest.
  assert (Hday : "dia_semana" ∈ temporal_columns) by in_columns.
  assert (Hdrop : "dia_semana" ∈ columns_to_drop (x_train self)).
  { unfold columns_to_drop. by apply list_elem_of_filter. }
  unfold and_then.
  rewrite encode_dia_semana_ordinal_state by auto.
  rewrite !handle_temporal_columns_Ok by done.
  simpl. change (columns_to_drop (encoded_frame (x_train self)))
    with (columns_to_drop (x_train self)).
  rewrite !without_columns_encoded_frame by done.
  by destruct self.
Qed.

Lemma encoder_then_filter_witness :
  and_then encode_dia_semana_ordinal (fun _ => _handle_temporal_columns)
    sample_cleaner
  = _handle_temporal_columns sample_cleaner.
Proof.
  apply encoder_then_filter.
  - reflexivity.
  - vm_compute. in_columns.
  - intros c _. vm_compute. tauto.
Defined.

End encoder_frame.

(** ** Class counts *)

Section class_counts.
Import BalanceadorClases.

Lemma value_eqb_refl v : value_is_nan v = false → value_eqb v v = true.
Proof.
  destruct v as [s|z|f]; simpl.
  - intros _. apply String.eqb_refl.
  - intros _. apply Z.eqb_refl.
  - unfold is_nan. by intros ->%negb_false_iff.
Qed.

Lemma add_count_total v counts :
  total_count (add_count v counts) = total_count counts + 1.
Proof.
  induction counts as [|[u c] rest IH]; simpl; [done|].
  destruct (value_eqb u v); simpl; lia.
Qed.

Lemma add_count_positive v counts :
  Forall (fun e => 1 ≤ snd e) counts →
  Forall (fun e => 1 ≤ snd e) (add_count v counts).
Proof.
  induction 1 as [|[u c] rest Hc Hrest IH]; simpl.
  - by repeat constructor.
  - destruct (value_eqb u v); constructor; simpl in *; try done; lia.
Qed.

Lemma add_count_labels (P : value → Prop) v counts :
  P v → Forall (fun e => P (fst e)) counts →
  Forall (fun e => P (fst e)) (add_count v counts).
Proof.
  intros Hv. induction 1 as [|[u c] rest Hu Hrest IH]; simpl.
  - by repeat constructor.
  - destruct (value_eqb u v); by constructor.
Qed.

Lemma add_count_distinct v counts :
  value_eqb v v = true → distinct_labels counts →
  distinct_labels (add_count v counts).
Proof.
  intros Hv. induction 1 as [|[u c] rest Hne Hu Hrest IH]; simpl.
  - by repeat constructor.
  - destruct (value_eqb u v) eqn:Huv.
    + by constructor.
    + constructor; [|done..].
      by apply (add_count_labels (fun w => value_eqb u w = false)).
Qed.

Lemma value_counts_invariant y :
  total_count (value_counts y)
    = Z.of_nat (length (filter (fun v => value_is_nan v = false) y)) ∧
  Forall (fun e => 1 ≤ snd e) (value_counts y) ∧
  distinct_labels (value_counts y).
Proof.
  unfold value_counts.
  assert (H : ∀ counts,
    Forall (fun e => 1 ≤ snd e) counts → distinct_labels counts →
    let r := foldl (fun counts v =>
                      if value_is_nan v then counts else add_count v counts)
                   counts y in
    total_count r
      = total_count counts
        + Z.of_nat (length (filter (fun v => value_is_nan v = false) y)) ∧
    Forall (fun e => 1 ≤ snd e) r ∧ distinct_labels r).
  { induction y as [|v y IH]; intros counts Hpos Hdis; simpl.
    - split; [lia|done].
    - destruct (value_is_nan v) eqn:Hnan.
      + rewrite filter_cons_False by (by rewrite Hnan). by apply IH.
      + rewrite filter_cons_True by done.
        destruct (IH (add_count v counts)) as (Ht & ? & ?).
        * by apply add_count_positive.
        * apply add_count_distinct; [by apply value_eqb_refl|done].
        * rewrite Ht, add_count_total. simpl. split; [lia|done]. }
  destruct (H []) as (Ht & ? & ?); [constructor..|].
  rewrite Ht. simpl. split; [lia|done].
Qed.

(** X16. [value_counts] loses no label: the class counts add up to the
    number of labels that are not missing, and every class that is
    listed has at least one row. *)
Theorem value_counts_total (y : list value) :
  total_count (value_counts y)
    = Z.of_nat (length (filter (fun v => value_is_nan v = false) y)) ∧
  Forall (fun e => 1 ≤ snd e) (value_counts y).
Proof. destruct (value_counts_invariant y) as (? & ? & _). done. Qed.

Lemma count_of_member counts e :
  distinct_labels counts → e ∈ counts → count_of counts (fst e) = Ok (snd e).
Proof.
  unfold count_of. induction 1 as [|e' rest Hne Hrefl Hrest IH].
  - by intros ?%elem_of_nil.
  - intros [->|Hin]%elem_of_cons; simpl.
    + by rewrite Hrefl.
    + rewrite Forall_forall in Hne. rewrite (Hne e Hin). by apply IH.
Qed.

Lemma foldl_min_spec (best : value * Z) (rest : list (value * Z)) :
  let r := foldl (fun best e => if snd e <? snd best then e else best)
                 best rest in
  r ∈ best :: rest ∧ ∀ e, e ∈ best :: rest → snd r ≤ snd e.
Proof.
  revert best. induction rest as [|x rest IH]; intros best; simpl.
  - split; [by left|]. intros e ->%list_elem_of_singleton. lia.
  - destruct (Z.ltb_spec (snd x) (snd best)).
    + destruct (IH x) as [Hin Hle]. split.
      * by right.
      * intros e [->|He]%elem_of_cons; [|by apply Hle].
        specialize (Hle x (list_elem_of_here _ _)). lia.
    + destruct (IH best) as [Hin Hle]. split.
      * apply elem_of_cons in Hin as [->|Hin]; [by left|by do 2 right].
      * intros e [->|[->|He]%elem_of_cons]%elem_of_cons.
        -- apply Hle. by left.
        -- specialize (Hle best (list_elem_of_here _ _)). lia.
        -- apply Hle. by right.
Qed.

Lemma foldl_max_spec (best : value * Z) (rest : list (value * Z)) :
  let r := foldl (fun best e => if snd best <? snd e then e else best)
                 best rest in
  r ∈ best :: rest ∧ ∀ e, e ∈ best :: rest → snd e ≤ snd r.
Proof.
  revert best. induction rest as [|x rest IH]; intros best; simpl.
  - split; [by left|]. intros e ->%list_elem_of_singleton. lia.
  - destruct (Z.ltb_spec (snd best) (snd x)).
    + destruct (IH x) as [Hin Hle]. split.
      * by right.
      * intros e [->|He]%elem_of_cons; [|by apply Hle].
        specialize (Hle x (list_elem_of_here _ _)). lia.
    + destruct (IH best) as [Hin Hle]. split.
      * apply elem_of_cons in Hin as [->|Hin]; [by left|by do 2 right].
      * intros e [->|[->|He]%elem_of_cons]%elem_of_cons.
        -- apply Hle. by left.
        -- specialize (Hle best (list_elem_of_here _ _)). lia.
        -- apply Hle. by right.
Qed.

(** X17. The balancer's class counts are what their names say. When every
    label is missing (or there is none) [minority_count] raises
    [ValueError]; otherwise both counts are defined, the minority count
    is at least 1 and at most the majority count, and every class has
    between the minority and the majority number of rows. *)
Theorem minority_majority_counts (y : list value) :
  (value_counts y = [] →
   minority_count y = Raise ValueError ∧ majority_count y = Raise ValueError) ∧
  (value_counts y ≠ [] →
   ∃ minority majority,
     minority_count y = Ok minority ∧ majority_count y = Ok majority ∧
     1 ≤ minority ≤ majority ∧
     ∀ e, e ∈ value_counts y → minority ≤ snd e ≤ majority).
Proof.
  unfold minority_count, majority_count.
  destruct (value_counts_invariant y) as (_ & Hpos & Hdis).
  destruct (value_counts y) as [|first rest] eqn:Hcounts.
  { split; [done|]. by intros []. }
  split; [done|]. intros _. unfold idxmin, idxmax.
  destruct (foldl_min_spec first rest) as [Hmin_in Hmin].
  destruct (foldl_max_spec first rest) as [Hmax_in Hmax].
  set (lo := foldl (fun best e => if snd e <? snd best then e else best)
               first rest) in *.
  set (hi := foldl (fun best e => if snd best <? snd e then e else best)
               first rest) in *.
  exists (snd lo), (snd hi).
  split; [by apply count_of_member|]. split; [by apply count_of_member|].
  split.
  - rewrite Forall_forall in Hpos. split; [by apply Hpos|by apply Hmin].
  - intros e He. split; [by apply Hmin|by apply Hmax].
Qed.

End class_counts.

Lemma minority_majority_counts_witness :
  BalanceadorClases.minority_count [NaN; NaN] = Raise ValueError ∧
  ∃ minority majority,
    BalanceadorClases.minority_count [VInt 1; VInt 0; NaN; VInt 0]
      = Ok minority ∧
    BalanceadorClases.majority_count [VInt 1; VInt 0; NaN; VInt 0]
      = Ok majority ∧
    1 ≤ minority ≤ majority.
Proof.
  split.
  - apply (minority_majority_counts [NaN; NaN]). vm_compute. reflexivity.
  - destruct (minority_majority_counts [VInt 1; VInt 0; NaN; VInt 0])
      as [_ (minority & majority & Hmin & Hmaj & Hle & _)];
      [vm_compute; discriminate|].
    by exists minority, majority.
Defined.

(** ** The balancing stage of the cleaner *)

Section balance_stage.
Import Cleaner.

Variable fit_resample :
  Z → float → frame → list value → result (frame * list value).
Variable sort_index : list (value * Z) → result (list (value * Z)).
Variable py_sorted : list value → result (list value).
Variable int_of_str : string → result Z.

Lemma setcol_array_same_length col vals df :
  length vals = length (rows df) →
  setcol_array col vals df = setcol col vals df.
Proof.
  unfold setcol_array. by destruct (rows df), vals.
Qed.

Lemma setcol_series_rows col vals df :
  length vals = length (rows df) →
  rows (setcol_series col vals df)
  = zip_with (fun r v => <[col := v]> r) (rows df) vals.
Proof.
  intros Hlen. unfold setcol_series. cbn [rows].
  destruct (rows df) as [|r rs] eqn:Hrows.
  - by destruct vals.
  - rewrite <- Hlen, firstn_all, Nat.sub_diag. simpl. by rewrite app_nil_r.
Qed.

Lemma getcol_setcol_series col vals df :
  length vals = length (rows df) →
  getcol col (setcol_series col vals df) = Ok vals.
Proof.
  intros Hlen. rewrite getcol_Ok.
  - by rewrite setcol_series_rows, zip_with_insert_key.
  - unfold setcol_series. cbn [columns].
    case_decide; [done|]. apply elem_of_app. right. by left.
Qed.

Lemma value_counts_labels (P : value → Prop) y :
  Forall P y →
  Forall (fun e => P (fst e)) (BalanceadorClases.value_counts y).
Proof.
  unfold BalanceadorClases.value_counts.
  assert (H : ∀ counts, Forall (fun e => P (fst e)) counts → Forall P y →
    Forall (fun e => P (fst e))
      (foldl (fun counts v =>
                if value_is_nan v then counts
                else BalanceadorClases.add_count v counts) counts y)).
  { induction y as [|v y IH]; intros counts Hcounts Hy; [done|].
    apply Forall_cons in Hy as [Hv Hy]. simpl. apply IH; [|done].
    destruct (value_is_nan v); [done|]. by apply add_count_labels. }
  intros Hy. apply H; [constructor|done].
Qed.

Lemma unique_elem_of y v : v ∈ BalanceadorClases.unique y → v ∈ y.
Proof.
  induction y as [|u y IH]; simpl; [done|].
  intros [->|Hv%list_elem_of_filter]%elem_of_cons; [by left|].
  right. apply IH, Hv.
Qed.

Lemma percentage_Ok count total :
  total ≠ 0 → ∃ pct, BalanceadorClases.percentage count total = Ok pct.
Proof.
  intros Htotal. unfold BalanceadorClases.percentage.
  destruct count; [by eexists|].
  destruct (Z.eqb_spec total 0); [done|by eexists].
Qed.

(** With integer labels, and a balanced table that is not empty when the
    data has rows, the comparison is built without an exception. *)
Lemma show_balancing_comparison_integers
    (self : BalanceadorClases.t) (data_balanced : frame) (y y' : list value) :
  BalanceadorClases.sort_index_contract sort_index →
  BalanceadorClases.sorted_contract py_sorted →
  getcol (BalanceadorClases.target_column self) (BalanceadorClases.data self)
    = Ok y →
  getcol (BalanceadorClases.target_column self) data_balanced = Ok y' →
  Forall BalanceadorClases.is_int y → Forall BalanceadorClases.is_int y' →
  (rows (BalanceadorClases.data self) ≠ [] → rows data_balanced ≠ []) →
  ∃ comparison_data,
    BalanceadorClases.show_balancing_comparison sort_index py_sorted
      int_of_str self data_balanced
    = Ok comparison_data.
Proof.
  intros [_ Hindex] [Hperm Hsorted] Hy Hy' Hint Hint' Hrows.
  unfold BalanceadorClases.show_balancing_comparison.
  rewrite Hy. simpl.
  destruct (Hindex (BalanceadorClases.value_counts y)) as [before ->];
    [by apply value_counts_labels|]. simpl.
  rewrite Hy'. simpl.
  destruct (Hindex (BalanceadorClases.value_counts y')) as [after ->];
    [by apply value_counts_labels|]. simpl.
  destruct (Hsorted (BalanceadorClases.unique y)) as [labels Hlabels].
  { apply Forall_forall. intros v Hv%unique_elem_of.
    by eapply Forall_forall in Hint. }
  rewrite Hlabels. simpl.
  apply traverse_Ok. intros label Hlabel.
  assert (Hin : label ∈ y).
  { apply unique_elem_of. by rewrite <- (Hperm _ _ Hlabels). }
  assert (Hdata : rows (BalanceadorClases.data self) ≠ []).
  { intros Hnil. unfold getcol in Hy. case_decide; [|done].
    rewrite Hnil in Hy. injection Hy as <-. by apply elem_of_nil in Hin. }
  unfold BalanceadorClases.comparison_of.
  destruct (percentage_Ok
              (BalanceadorClases.Series_get before label)
              (Z.of_nat (length (rows (BalanceadorClases.data self)))))
    as [pct_before ->].
  { destruct (rows (BalanceadorClases.data self)); [done|]. simpl. lia. }
  destruct (percentage_Ok
              (BalanceadorClases.Series_get after label)
              (Z.of_nat (length (rows data_balanced))))
    as [pct_after ->].
  { destruct (rows data_balanced) eqn:Hb; [by apply Hrows in Hdata|].
    simpl. lia. }
  simpl. eapply Forall_forall in Hint as [z ->]; [|done].
  simpl. by eexists.
Qed.

(** X9. On a train split as the partition leaves it (no label column in
    the table, one label per row), with integer labels, whose class
    ratio already meets the target, the whole balancing stage is a
    no-op: the oversampler is not called, the comparison of the counts
    before and after is built without an exception (the labels are
    integers, which [sorted] and [sort_index] can order and [int]
    converts), and the object is left exactly as it was. *)
Theorem balance_stage_noop (self : Cleaner.t)
    (sampling_strategy : float) (k_neighbors minority majority : Z) :
  BalanceadorClases.sort_index_contract sort_index →
  BalanceadorClases.sorted_contract py_sorted →
  Forall BalanceadorClases.is_int (y_train self) →
  "is_alcista" ∉ columns (x_train self) →
  Forall (fun r => r !! "is_alcista" = None) (rows (x_train self)) →
  length (y_train self) = length (rows (x_train self)) →
  BalanceadorClases.minority_count (y_train self) = Ok minority →
  BalanceadorClases.majority_count (y_train self) = Ok majority →
  (sampling_strategy <=? Z2float minority / Z2float majority)%float = true →
  _balance_classes fit_resample sort_index py_sorted int_of_str
    sampling_strategy k_neighbors self
  = (Ok (), self).
Proof.
  intros Hindex Hsorted Hint Hcol Hnone Hlen Hmin Hmaj Hratio.
  set (temp_df :=
         {| columns := columns (x_train self) ++ ["is_alcista"];
            rows := zip_with (fun r v => <["is_alcista" := v]> r)
                      (rows (x_train self)) (y_train self) |}).
  set (balanceador := {| BalanceadorClases.target_column := "is_alcista";
                         BalanceadorClases.data := temp_df |}).
  assert (Htemp : setcol_array "is_alcista" (y_train self) (x_train self)
                  = Ok temp_df).
  { rewrite setcol_array_same_length by done. unfold setcol.
    rewrite decide_True by done. by rewrite decide_False by done. }
  assert (Hin : "is_alcista" ∈ columns temp_df).
  { apply elem_of_app. right. by left. }
  assert (Hy : getcol "is_alcista" temp_df = Ok (y_train self)).
  { rewrite (getcol_Ok _ _ Hin). simpl.
    by rewrite (zip_with_insert_key _ _ _ Hlen). }
  assert (Hsmote :
    BalanceadorClases.apply_smote_temporal_safe fit_resample balanceador
      sampling_strategy k_neighbors
    = Ok (x_train self, y_train self)).
  { erewrite (apply_smote_temporal_safe_unfold fit_resample balanceador);
      simpl; [| done | by rewrite (zip_with_insert_key _ _ _ Hlen)..].
    rewrite (zip_with_insert_key _ _ _ Hlen), Hratio.
    rewrite (zip_with_insert_delete _ _ _ Hlen Hnone).
    rewrite filter_app, filter_true.
    2:{ intros c Hc Hc'. apply list_elem_of_singleton in Hc'. by subst. }
    rewrite filter_cons_False by (intros Hnot; apply Hnot; by left).
    rewrite app_nil_r. by destruct (x_train self). }
  destruct (show_balancing_comparison_integers balanceador
              (setcol_series "is_alcista" (y_train self) (x_train self))
              (y_train self) (y_train self))
    as [comparison_data Hshow].
  - done.
  - done.
  - exact Hy.
  - by apply getcol_setcol_series.
  - done.
  - done.
  - intros Hrows Hnil. apply Hrows. simpl.
    rewrite setcol_series_rows in Hnil by done.
    apply (f_equal length) in Hnil. rewrite length_zip_with in Hnil.
    destruct (rows (x_train self)), (y_train self); done.
  - unfold _balance_classes. fold temp_df. rewrite Htemp. simpl.
    fold balanceador. rewrite Hsmote. simpl. rewrite Hshow. simpl.
    by destruct self.
Qed.

End balance_stage.

Lemma insert_sorted_Ok {A} (key : A → value) (x : A) (l : list A) :
  BalanceadorClases.is_int (key x) →
  Forall (fun y => BalanceadorClases.is_int (key y)) l →
  ∃ l', BalanceadorClases.insert_sorted key x l = Ok l'.
Proof.
  intros [z Hz]. induction 1 as [|y l [z' Hz'] Hl [l' IH]]; simpl;
    [by eexists|].
  rewrite Hz, Hz'. simpl. destruct (z <? z'); [by eexists|].
  rewrite IH. by eexists.
Qed.

Lemma insert_sorted_perm {A} (key : A → value) (x : A) (l l' : list A) :
  BalanceadorClases.insert_sorted key x l = Ok l' → l' ≡ₚ x :: l.
Proof.
  revert l'. induction l as [|y l IH]; intros l'; simpl.
  - by intros [= <-].
  - destruct (BalanceadorClases.py_lt _ _) as [[]|e]; simpl; [| |done].
    + by intros [= <-].
    + destruct (BalanceadorClases.insert_sorted key x l) as [l''|e];
        simpl; [|done].
      intros [= <-]. rewrite (IH l'') by done. apply Permutation_swap.
Qed.

Lemma sort_by_insertion_perm {A} (key : A → value) (l l' : list A) :
  BalanceadorClases.sort_by_insertion key l = Ok l' → l' ≡ₚ l.
Proof.
  unfold BalanceadorClases.sort_by_insertion.
  revert l'. induction l as [|x l IH]; intros l'; simpl.
  - by intros [= <-].
  - destruct (foldr _ _ l) as [l''|e]; simpl; [|done].
    intros ->%insert_sorted_perm. by rewrite (IH l'').
Qed.

Lemma sort_by_insertion_Ok {A} (key : A → value) (l : list A) :
  Forall (fun y => BalanceadorClases.is_int (key y)) l →
  ∃ l', BalanceadorClases.sort_by_insertion key l = Ok l'.
Proof.
  unfold BalanceadorClases.sort_by_insertion.
  induction 1 as [|x l Hx Hl [l' IH]]; simpl; [by eexists|].
  rewrite IH. simpl. apply insert_sorted_Ok; [done|].
  apply sort_by_insertion_perm in IH.
  apply Forall_forall. intros y Hy. rewrite IH in Hy.
  by eapply Forall_forall in Hl.
Qed.

Lemma sorted_by_insertion_contract :
  BalanceadorClases.sorted_contract BalanceadorClases.sorted_by_insertion.
Proof.
  split.
  - apply sort_by_insertion_perm.
  - apply (sort_by_insertion_Ok id).
Qed.

Lemma sort_index_by_insertion_contract :
  BalanceadorClases.sort_index_contract
    BalanceadorClases.sort_index_by_insertion.
Proof.
  split.
  - apply sort_by_insertion_perm.
  - apply (sort_by_insertion_Ok fst).
Qed.

Lemma balance_stage_noop_witness :
  Cleaner._balance_classes BalanceadorClases.checking_fit_resample
    BalanceadorClases.sort_index_by_insertion BalanceadorClases.sorted_by_insertion
    (fun _ => Raise ValueError) 0.5 3 Cleaner.sample_cleaner
  = (Ok (), Cleaner.sample_cleaner).
Proof.
  apply (balance_stage_noop _ _ _ _ _ _ _ 2 2).
  - apply sort_index_by_insertion_contract.
  - apply sorted_by_insertion_contract.
  - vm_compute. repeat constructor; by eexists.
  - vm_compute. intros Hin.
    repeat (apply elem_of_cons in Hin as [Hin|Hin]; [discriminate Hin|]).
    by apply elem_of_nil in Hin.
  - apply forallb_lookup_None. vm_compute. reflexivity.
  - vm_compute. reflexivity.
  - vm_compute. reflexivity.
  - vm_compute. reflexivity.
  - vm_compute. reflexivity.
Defined.

(** ** The balancer run on its own *)

Section balancer_main.
Import BalanceadorClasesMain.

Variable path_exists : string → bool.
Variable read_csv : string → outcome frame.
Variable to_csv : frame → string → outcome ().
Variable sort_index : list (value * Z) → result (list (value * Z)).
Variable py_sorted : list value → result (list value).
Variable int_of_str : string → result Z.
Variable fit_resample :
  Z → float → frame → list value → result (frame * list value).

(** X18. [BalanceadorClases.main] throws the balanced table away: nothing
    in it assigns [data_balanced], so whatever it returns is the
    [data_balanced] the object had before the call. On an object where
    that is [None] (a new one) [main] never returns: when the file is
    read, the class distribution is analysed and the oversampling
    returns, step 4 analyses [None] and [main] raises [AttributeError],
    with the loaded data and the distribution before balancing as the
    only attributes assigned. *)
Theorem balanceador_main_discards_result (self : BalanceadorClasesMain.t)
    (input_file_path : string) (output_file_path : option string)
    (sampling_strategy : float) (k_neighbors : Z) :
  let run := main path_exists read_csv to_csv sort_index py_sorted int_of_str
               fit_resample input_file_path
               output_file_path sampling_strategy k_neighbors self in
  data_balanced (snd run) = data_balanced self ∧
  (∀ returned, fst run = Returns returned →
     returned = data_balanced self ∧ is_Some returned) ∧
  (data_balanced self = None →
   (∃ r, fst run = Raises r) ∧
   ∀ df before balanced,
     path_exists input_file_path = true →
     read_csv input_file_path = Returns df →
     _analyze_class_distribution sort_index int_of_str (set_data df self)
       (Some df) = Returns before →
     apply_smote_temporal_safe fit_resample
       (set_class_distribution_before before (set_data df self))
       sampling_strategy k_neighbors = Returns balanced →
     run = (Raises AttributeError,
            set_class_distribution_before before (set_data df self))).
Proof.
  cbv zeta.
  set (kept := fun run : outcome (option frame) * BalanceadorClasesMain.t =>
    data_balanced (snd run) = data_balanced self ∧
    (∀ returned, fst run = Returns returned →
       returned = data_balanced self ∧ is_Some returned) ∧
    (data_balanced self = None → ∃ r, fst run = Raises r)).
  assert (Hkept : kept (main path_exists read_csv to_csv sort_index py_sorted
    int_of_str fit_resample input_file_path output_file_path
    sampling_strategy k_neighbors self)).
  { assert (Hraise : ∀ r self',
      data_balanced self' = data_balanced self → kept (Raises r, self')).
    { intros r self' Hself'. unfold kept. simpl.
      split; [done|]. split; [done|]. by eauto. }
    assert (Hreturn : ∀ self' stale,
      data_balanced self' = data_balanced self →
      data_balanced self = Some stale →
      kept (Returns (Some stale), self')).
    { intros self' stale Hself' Hstale. unfold kept. simpl.
      rewrite Hself', Hstale. split; [done|]. split; [|done].
      intros returned [= <-]. by eauto. }
    clearbody kept.
    unfold main, load_data.
    destruct (path_exists input_file_path); [|by apply Hraise].
    destruct (read_csv input_file_path) as [df|r]; [|by apply Hraise].
    cbn [data set_data].
    destruct (_analyze_class_distribution _ _ (set_data df self) (Some df))
      as [before|r]; [|by apply Hraise].
    destruct (apply_smote_temporal_safe _ _ _ _) as [balanced|r];
      [|by apply Hraise].
    cbn [data_balanced set_class_distribution_before set_data].
    destruct (data_balanced self) as [stale|] eqn:Hstale.
    2:{ cbn [_analyze_class_distribution]. by apply Hraise. }
    destruct (_analyze_class_distribution _ _ _ (Some stale)) as [after|r];
      [|by apply Hraise].
    unfold show_balancing_comparison, save_balanced_data.
    cbn [data_balanced set_class_distribution_after
         set_class_distribution_before set_data data].
    rewrite Hstale.
    destruct (lift _) as [cmp|r]; [|by apply Hraise].
    destruct output_file_path as [path|]; [|by apply (Hreturn _ stale)].
    destruct (decide (path = "")); [by apply (Hreturn _ stale)|].
    destruct (to_csv stale path); [by apply (Hreturn _ stale)|by apply Hraise]. }
  destruct Hkept as (Hstate & Hreturned & Hraises).
  split; [done|]. split; [done|]. intros Hnone. split; [by apply Hraises|].
  intros df before balanced Hpath Hread Hbefore Hsmote.
  unfold main, load_data. rewrite Hpath, Hread. cbn [data set_data].
  rewrite Hbefore, Hsmote.
  cbn [data_balanced set_class_distribution_before set_data].
  by rewrite Hnone.
Qed.

End balancer_main.

Lemma balanceador_main_discards_result_witness :
  fst (BalanceadorClasesMain.main (fun _ => true)
         (fun _ => BalanceadorClasesMain.Returns Cleaner.sample_frame)
         (fun _ _ => BalanceadorClasesMain.Returns ())
         BalanceadorClases.sort_index_by_insertion
         BalanceadorClases.sorted_by_insertion (fun _ => Raise ValueError)
         BalanceadorClases.checking_fit_resample
         "data_grouped.csv" (Some "data_grouped_balanced.csv") 0.8 3
         (BalanceadorClasesMain.init "is_alcista"))
  = BalanceadorClasesMain.Raises BalanceadorClasesMain.AttributeError.
Proof.
  set (self := BalanceadorClasesMain.init "is_alcista").
  destruct (balanceador_main_discards_result (fun _ => true)
              (fun _ => BalanceadorClasesMain.Returns Cleaner.sample_frame)
              (fun _ _ => BalanceadorClasesMain.Returns ())
              BalanceadorClases.sort_index_by_insertion
              BalanceadorClases.sorted_by_insertion (fun _ => Raise ValueError)
              BalanceadorClases.checking_fit_resample self
              "data_grouped.csv" (Some "data_grouped_balanced.csv") 0.8 3)
    as (_ & _ & Hnone).
  destruct (Hnone eq_refl) as [_ Hstep4].
  destruct (BalanceadorClasesMain._analyze_class_distribution
              BalanceadorClases.sort_index_by_insertion
              (fun _ => Raise ValueError)
              (BalanceadorClasesMain.set_data Cleaner.sample_frame self)
              (Some Cleaner.sample_frame))
    as [before|r] eqn:Hbefore; [|by vm_compute in Hbefore].
  destruct (BalanceadorClasesMain.apply_smote_temporal_safe
              BalanceadorClases.checking_fit_resample
              (BalanceadorClasesMain.set_class_distribution_before before
                 (BalanceadorClasesMain.set_data Cleaner.sample_frame self))
              0.8 3)
    as [balanced|r] eqn:Hsmote; [|by vm_compute in Hsmote].
  by rewrite (Hstep4 Cleaner.sample_frame before balanced eq_refl eq_refl
                Hbefore Hsmote).
Defined.

(** ** The whole cleaning pipeline *)

Section cleaner_main.
Import Cleaner.

Variable sort_values : string → frame → result frame.
Variable fit_resample :
  Z → float → frame → list value → result (frame * list value).
Variable sort_index : list (value * Z) → result (list (value * Z)).
Variable py_sorted : list value → result (list value).
Variable int_of_str : string → result Z.





End cleaner_main.

